(** * FlowGauge: the DSCP dialer, the speedtest runners and the scheduler

    A shallow embedding of
      - package speedtest: the DSCP dialer (dscp.go with the control function
        of each platform), Runner.Run and MultiWANRunner;
      - package scheduler: Scheduler;
    followed by the properties of these functions.

    Conventions.  A Go [int] is a [Z] with the 64-bit wrap-around written
    out.  A Go [error] is the text of its [Error()] method, [option error]
    being a possibly-nil error.  A [float64] that the code only stores is a
    rational.  Wall-clock time is a [Z] of nanoseconds carried through the
    calls; everything the third-party measurement client, the operating
    system and the cron library decide is read from an explicit environment
    record. *)

From Stdlib Require Import ZArith List String Bool Lia QArith Permutation.
From Stdlib Require Import DecimalString.
Import ListNotations.
Open Scope string_scope.
Open Scope list_scope.
Open Scope Z_scope.

(** ** Go integers *)

Module GoInt.

Definition wrap (z : Z) : Z := (z + 2 ^ 63) mod 2 ^ 64 - 2 ^ 63.

(** [x << n] on [int]. *)
Definition shl (x n : Z) : Z := wrap (Z.shiftl x n).

(** [x >> n] on [int] (arithmetic shift). *)
Definition shr (x n : Z) : Z := Z.shiftr x n.

(** The verb [%d]. *)
Definition itoa (z : Z) : string := NilZero.string_of_int (Z.to_int z).

End GoInt.

Definition error : Type := string.

(** The empty string and the double quote character. *)
Definition empty : string := EmptyString.
Definition quote : string := String (Ascii.ascii_of_nat 34) EmptyString.

(** ** internal/speedtest: dscp.go and the two control functions *)

Module Dscp.

(** The build tag that selects dscp_unix.go or dscp_windows.go. *)
Inductive Platform : Type := Unix | Windows.

(** A [setsockopt] request: level and option name with the value. *)
Inductive SockOpt : Type :=
| IP_TOS (v : Z)
| IPV6_TCLASS (v : Z).

Definition optValue (o : SockOpt) : Z :=
  match o with IP_TOS v => v | IPV6_TCLASS v => v end.

(** What the dialer writes to its logger. *)
Inductive LogEntry : Type :=
| DebugBindingSourceIP (ip : string)
| DebugDSCPSet (dscp tos : Z) (ipv6 : bool)
| WarnDSCPUnsupported (dscp : Z).

Record DSCPDialer : Type := {
  DSCP : Z;
  SourceIP : string;
  Logger : bool          (* Logger != nil *)
}.

Inductive LocalAddr : Type :=
| TCPAddr (ip : string)
| UDPAddr (ip : string).

(** The host: the answers of [net.ParseIP], of what a dial does before a
    socket exists (address resolution, a local address that does not fit
    the network, the socket call), of the raw connection, of
    [syscall.SetsockoptInt], and of bind and connect. *)
Record NetEnv : Type := {
  platform : Platform;
  ParseIP : string -> bool;                       (* net.ParseIP(s) != nil *)
  openSocket : option LocalAddr -> string -> string -> option error;
  controlNetwork : string -> string -> string;    (* network handed to Control *)
  rawControl : option error;                      (* error of RawConn.Control *)
  SetsockoptInt : SockOpt -> option error;
  bindLocal : LocalAddr -> option error;
  connect : string -> string -> option error
}.

Definition DSCPToTOS (dscp : Z) : Z := GoInt.shl dscp 2.

Definition TOSToDSCP (tos : Z) : Z := GoInt.shr tos 2.

Definition NewDSCPDialer (E : NetEnv) (dscp : Z) (sourceIP : string)
    (logger : bool) : error + DSCPDialer :=
  if (dscp <? 0) || (63 <? dscp) then
    inl ("DSCP value must be between 0 and 63, got " ++ GoInt.itoa dscp)%string
  else if negb (String.eqb sourceIP empty) && negb (ParseIP E sourceIP) then
    inl ("invalid source IP address: " ++ sourceIP)%string
  else
    inr {| DSCP := dscp; SourceIP := sourceIP; Logger := logger |}.

(** The result of a control function: its error, the options now set on
    the socket, and the log lines written. *)
Record Controlled : Type := {
  ctlErr : option error;
  ctlApplied : list SockOpt;
  ctlLog : list LogEntry
}.

(** dscp_unix.go *)
Definition controlFuncUnix (E : NetEnv) (d : DSCPDialer) (network : string)
    : Controlled :=
  match rawControl E with
  | Some err =>
      {| ctlErr := Some ("failed to access raw connection: " ++ err)%string;
         ctlApplied := []; ctlLog := [] |}
  | None =>
      let tos := GoInt.shl (DSCP d) 2 in
      let isIPv6 := String.eqb network "tcp6" || String.eqb network "udp6" in
      let opt := if isIPv6 then IPV6_TCLASS tos else IP_TOS tos in
      match SetsockoptInt E opt with
      | None =>
          {| ctlErr := None;
             ctlApplied := [opt];
             ctlLog := if Logger d then [DebugDSCPSet (DSCP d) tos isIPv6]
                       else [] |}
      | Some setsockoptErr =>
          {| ctlErr := Some ("failed to set DSCP (TOS="
                             ++ GoInt.itoa (GoInt.shl (DSCP d) 2) ++ "): "
                             ++ setsockoptErr)%string;
             ctlApplied := []; ctlLog := [] |}
      end
  end.

(** dscp_windows.go *)
Definition controlFuncWindows (d : DSCPDialer) : Controlled :=
  {| ctlErr := None;
     ctlApplied := [];
     ctlLog := if Logger d then [WarnDSCPUnsupported (DSCP d)] else [] |}.

Definition controlFunc (E : NetEnv) (d : DSCPDialer) (network : string)
    : Controlled :=
  match platform E with
  | Unix => controlFuncUnix E d network
  | Windows => controlFuncWindows d
  end.

(** An established connection. *)
Record Conn : Type := {
  connLocal : option LocalAddr;
  connOpts : list SockOpt
}.

Record Dialed : Type := {
  dialResult : error + Conn;
  dialLog : list LogEntry
}.

(** The text of the [*net.OpError] a failed dial returns. *)
Definition opError (network address : string) (err : error) : error :=
  ("dial " ++ network ++ " " ++ address ++ ": " ++ err)%string.

(** [net.Dialer.DialContext]: the address is resolved and the socket
    created (a failure there ends the dial before [Control] is called);
    [Control] (when set) runs on the new socket, then the local address is
    bound and the handshake made; the first error ends the dial. *)
Definition netDial (E : NetEnv) (local : option LocalAddr)
    (control : option DSCPDialer) (network address : string)
    (log : list LogEntry) : Dialed :=
  match openSocket E local network address with
  | Some err =>
      {| dialResult := inl (opError network address err); dialLog := log |}
  | None =>
      let c := match control with
               | Some d => controlFunc E d (controlNetwork E network address)
               | None => {| ctlErr := None; ctlApplied := []; ctlLog := [] |}
               end in
      match ctlErr c with
      | Some err =>
          {| dialResult := inl (opError network address err);
             dialLog := log ++ ctlLog c |}
      | None =>
          match match local with Some a => bindLocal E a | None => None end with
          | Some err =>
              {| dialResult := inl (opError network address err);
                 dialLog := log ++ ctlLog c |}
          | None =>
              match connect E network address with
              | Some err =>
                  {| dialResult :=
                       inl (opError network address err);
                     dialLog := log ++ ctlLog c |}
              | None =>
                  {| dialResult := inr {| connLocal := local;
                                          connOpts := ctlApplied c |};
                     dialLog := log ++ ctlLog c |}
              end
          end
      end
  end.

Definition isUDP (network : string) : bool :=
  String.eqb network "udp" || String.eqb network "udp4" || String.eqb network "udp6".

Definition DialContext (E : NetEnv) (d : DSCPDialer)
    (network address : string) : Dialed :=
  let control := if 0 <? DSCP d then Some d else None in
  if String.eqb (SourceIP d) empty then
    netDial E None control network address []
  else if negb (ParseIP E (SourceIP d)) then
    {| dialResult := inl ("invalid source IP: " ++ SourceIP d)%string;
       dialLog := [] |}
  else
    let local := if isUDP network then UDPAddr (SourceIP d)
                 else TCPAddr (SourceIP d) in
    netDial E (Some local) control network address
            (if Logger d then [DebugBindingSourceIP (SourceIP d)] else []).

Definition Dial (E : NetEnv) (d : DSCPDialer) (network address : string)
    : Dialed :=
  DialContext E d network address.





(** The same dialer asking for no marking. *)
Definition unmarked (d : DSCPDialer) : DSCPDialer :=
  {| DSCP := 0; SourceIP := SourceIP d; Logger := Logger d |}.

Definition dialFailed (r : Dialed) : bool :=
  match dialResult r with inl _ => true | inr _ => false end.

End Dscp.

(** ** internal/config: the structures the runners read *)

Module Config.

Record ConnectionConfig : Type := {
  Name : string;
  SourceIP : string;
  DSCP : Z;
  Enabled : bool
}.

Record SchedulerConfig : Type := {
  SchedEnabled : bool;
  Schedule : string
}.

Record SpeedtestConfig : Type := {
  ServerIDs : list Z
}.

(** *** The whole configuration file *)

Record GeneralConfig : Type := {
  LogLevel : string;
  DataDir : string
}.

Record SQLiteConfig : Type := {
  Path : string
}.

Record PostgresConfig : Type := {
  Host : string;
  Port : Z;
  Database : string;
  User : string;
  Password : string;
  SSLMode : string
}.

Record StorageConfig : Type := {
  StorageType : string;
  SQLite : SQLiteConfig;
  Postgres : PostgresConfig
}.

Record AuthConfig : Type := {
  Username : string;
  AuthPassword : string
}.

Record WebserverConfig : Type := {
  WebEnabled : bool;
  Listen : string;
  Auth : option AuthConfig
}.

(** The speedtest section: the part the runner reads, and the rest. *)
Record SpeedtestSection : Type := {
  forRunner : SpeedtestConfig;
  Timeout : Z;                 (* a time.Duration, nanoseconds *)
  DownloadSize : string;
  UploadSize : string
}.

Record File : Type := {
  General : GeneralConfig;
  Storage : StorageConfig;
  Webserver : WebserverConfig;
  Connections : list ConnectionConfig;
  Scheduler : SchedulerConfig;
  Speedtest : SpeedtestSection
}.

Definition DefaultLogLevel : string := "info".
Definition DefaultDataDir : string := "/var/lib/flowgauge".
Definition DefaultStorageType : string := "sqlite".
Definition DefaultSQLitePath : string := "/var/lib/flowgauge/results.db".
Definition DefaultWebserverListen : string := "127.0.0.1:8080".
Definition DefaultSchedule : string := "0 * * * *".
Definition DefaultTestTimeout : Z := 60 * 1000000000.
Definition DefaultDownloadSize : string := "auto".
Definition DefaultUploadSize : string := "auto".
Definition DefaultPostgresPort : Z := 5432.
Definition DefaultPostgresSSL : string := "disable".

Definition NewDefault : File :=
  {| General := {| LogLevel := DefaultLogLevel; DataDir := DefaultDataDir |};
     Storage := {| StorageType := DefaultStorageType;
                   SQLite := {| Path := DefaultSQLitePath |};
                   Postgres := {| Host := empty; Port := DefaultPostgresPort;
                                  Database := empty; User := empty;
                                  Password := empty;
                                  SSLMode := DefaultPostgresSSL |} |};
     Webserver := {| WebEnabled := true; Listen := DefaultWebserverListen;
                     Auth := None |};
     Connections := [];
     Scheduler := {| SchedEnabled := false; Schedule := DefaultSchedule |};
     Speedtest := {| forRunner := {| ServerIDs := [] |};
                     Timeout := DefaultTestTimeout;
                     DownloadSize := DefaultDownloadSize;
                     UploadSize := DefaultUploadSize |} |}.

Definition orDefault (s dflt : string) : string :=
  if String.eqb s empty then dflt else s.

(** ApplyDefaults.  The assignments are made in the order of the source:
    the SQLite path is defaulted against the storage type already
    defaulted.  (A nil list of server IDs becomes an empty one; lists here
    do not tell the two apart.) *)
Definition ApplyDefaults (cfg : File) : File :=
  let storageType := orDefault (StorageType (Storage cfg)) DefaultStorageType in
  let sqlitePath :=
    if String.eqb storageType "sqlite"
       && String.eqb (Path (SQLite (Storage cfg))) empty
    then DefaultSQLitePath else Path (SQLite (Storage cfg)) in
  let pg := Postgres (Storage cfg) in
  {| General := {| LogLevel := orDefault (LogLevel (General cfg)) DefaultLogLevel;
                   DataDir := orDefault (DataDir (General cfg)) DefaultDataDir |};
     Storage := {| StorageType := storageType;
                   SQLite := {| Path := sqlitePath |};
                   Postgres :=
                     {| Host := Host pg;
                        Port := if Port pg =? 0 then DefaultPostgresPort else Port pg;
                        Database := Database pg; User := User pg;
                        Password := Password pg;
                        SSLMode := orDefault (SSLMode pg) DefaultPostgresSSL |} |};
     Webserver := {| WebEnabled := WebEnabled (Webserver cfg);
                     Listen := orDefault (Listen (Webserver cfg)) DefaultWebserverListen;
                     Auth := Auth (Webserver cfg) |};
     Connections := Connections cfg;
     Scheduler := {| SchedEnabled := SchedEnabled (Scheduler cfg);
                     Schedule := orDefault (Schedule (Scheduler cfg)) DefaultSchedule |};
     Speedtest :=
       {| forRunner := forRunner (Speedtest cfg);
          Timeout := if Timeout (Speedtest cfg) =? 0 then DefaultTestTimeout
                     else Timeout (Speedtest cfg);
          DownloadSize := orDefault (DownloadSize (Speedtest cfg)) DefaultDownloadSize;
          UploadSize := orDefault (UploadSize (Speedtest cfg)) DefaultUploadSize |} |}.

Definition GetEnabledConnections (c : File) : list ConnectionConfig :=
  filter Enabled (Connections c).

(** GetConnectionByName: the first connection of that name, nil if none. *)
Definition GetConnectionByName (c : File) (name : string)
    : option ConnectionConfig :=
  find (fun conn => String.eqb (Name conn) name) (Connections c).

(** What the loader asks of the system and of the standard library. *)
Record LoaderEnv : Type := {
  loaderParseIP : string -> bool;             (* net.ParseIP(s) != nil *)
  SplitHostPort : string -> option error;     (* error of net.SplitHostPort *)
  Quote : string -> string;                   (* the verb %q *)
  Stat : string -> bool;                      (* os.Stat succeeds *)
  Getenv : string -> string
}.

(** A lookup in one of the [map[string]bool] tables of Validate. *)
Definition allowed (table : list string) (key : string) : bool :=
  existsb (String.eqb key) table.

(** The loop over the connections: [i] is the index, [seen] the names
    entered in connectionNames so far. *)
Fixpoint validateConnections (L : LoaderEnv) (i : Z) (seen : list string)
    (conns : list ConnectionConfig) : option error :=
  match conns with
  | [] => None
  | conn :: rest =>
      if String.eqb (Name conn) empty then
        Some ("connection[" ++ GoInt.itoa i ++ "]: name is required")%string
      else if allowed seen (Name conn) then
        Some ("connection[" ++ GoInt.itoa i ++ "]: duplicate connection name "
              ++ Quote L (Name conn))%string
      else if (DSCP conn <? 0) || (63 <? DSCP conn) then
        Some ("connection " ++ Quote L (Name conn)
              ++ ": DSCP value must be between 0 and 63, got "
              ++ GoInt.itoa (DSCP conn))%string
      else if negb (String.eqb (SourceIP conn) empty)
              && negb (loaderParseIP L (SourceIP conn)) then
        Some ("connection " ++ Quote L (Name conn) ++ ": invalid source_ip "
              ++ Quote L (SourceIP conn))%string
      else validateConnections L (i + 1) (Name conn :: seen) rest
  end.

Definition Validate (L : LoaderEnv) (cfg : File) : option error :=
  if negb (allowed ["debug"; "info"; "warn"; "error"] (LogLevel (General cfg))) then
    Some ("invalid log_level: " ++ Quote L (LogLevel (General cfg))
          ++ " (must be debug, info, warn, or error)")%string
  else if negb (allowed ["sqlite"; "postgres"] (StorageType (Storage cfg))) then
    Some ("invalid storage type: " ++ Quote L (StorageType (Storage cfg))
          ++ " (must be sqlite or postgres)")%string
  else if String.eqb (StorageType (Storage cfg)) "sqlite"
          && String.eqb (Path (SQLite (Storage cfg))) empty then
    Some "sqlite path is required when storage type is sqlite"
  else if String.eqb (StorageType (Storage cfg)) "postgres"
          && String.eqb (Host (Postgres (Storage cfg))) empty then
    Some "postgres host is required when storage type is postgres"
  else if String.eqb (StorageType (Storage cfg)) "postgres"
          && String.eqb (Database (Postgres (Storage cfg))) empty then
    Some "postgres database is required when storage type is postgres"
  else
    match (if WebEnabled (Webserver cfg)
           then SplitHostPort L (Listen (Webserver cfg)) else None) with
    | Some err =>
        Some ("invalid webserver listen address "
              ++ Quote L (Listen (Webserver cfg)) ++ ": " ++ err)%string
    | None =>
        match Connections cfg with
        | [] => Some "at least one connection must be configured"
        | conns =>
            match validateConnections L 0 [] conns with
            | Some err => Some err
            | None =>
                let validSizes := ["auto"; "small"; "medium"; "large"; empty] in
                if negb (allowed validSizes (DownloadSize (Speedtest cfg))) then
                  Some ("invalid speedtest download_size: "
                        ++ Quote L (DownloadSize (Speedtest cfg)))%string
                else if negb (allowed validSizes (UploadSize (Speedtest cfg))) then
                  Some ("invalid speedtest upload_size: "
                        ++ Quote L (UploadSize (Speedtest cfg)))%string
                else None
            end
        end
    end.

Definition DefaultConfigPaths : list string :=
  ["/etc/flowgauge/config.yaml"; "/etc/flowgauge/config.yml";
   "./config.yaml"; "./config.yml"; "./flowgauge.yaml"; "./flowgauge.yml"].

(** The verb [%v] on a slice of strings. *)
Definition showPaths (ps : list string) : string :=
  ("[" ++ String.concat " " ps ++ "]")%string.

(** resolveConfigPath: the explicit path, else FLOWGAUGE_CONFIG, else the
    first default path that exists. *)
Definition resolveConfigPath (L : LoaderEnv) (path : string) : error + string :=
  if negb (String.eqb path empty) then
    if Stat L path then inr path
    else inl ("config file not found: " ++ path)%string
  else
    let envPath := Getenv L "FLOWGAUGE_CONFIG" in
    if negb (String.eqb envPath empty) then
      if Stat L envPath then inr envPath
      else inl ("config file from FLOWGAUGE_CONFIG not found: " ++ envPath)%string
    else
      match find (Stat L) DefaultConfigPaths with
      | Some p => inr p
      | None => inl ("no config file found (searched: "
                     ++ showPaths DefaultConfigPaths ++ ")")%string
      end.

End Config.

(** ** internal/speedtest: result.go, runner.go, multiwan.go *)

Module Speedtest.

Record Result : Type := {
  ConnectionName : string;
  SourceIP : string;
  DSCP : Z;
  ServerID : Z;
  ServerName : string;
  ServerCountry : string;
  ServerHost : string;
  LatencyMs : Q;
  JitterMs : Q;
  DownloadMbps : Q;
  UploadMbps : Q;
  PacketLossPct : Q;
  Timestamp : option Z;     (* None is the zero time.Time *)
  Duration : Q;
  Error : string
}.

Definition IsError (r : Result) : bool := negb (String.eqb (Error r) empty).

(** The five measurement fields are all zero. *)
Definition unmeasured (r : Result) : Prop :=
  LatencyMs r = 0%Q /\ JitterMs r = 0%Q /\ DownloadMbps r = 0%Q
  /\ UploadMbps r = 0%Q /\ PacketLossPct r = 0%Q.

Definition nonzero (q : Q) : bool := negb (Qeq_bool q 0).

(** The five measurement fields are all non-zero. *)
Definition measured (r : Result) : bool :=
  nonzero (LatencyMs r) && nonzero (JitterMs r) && nonzero (DownloadMbps r)
  && nonzero (UploadMbps r) && nonzero (PacketLossPct r).

Record WANConnection : Type := {
  Name : string;
  connSourceIP : string;
  connDSCP : Z;
  Enabled : bool
}.

Definition WANConnectionFromConfig (cfg : Config.ConnectionConfig)
    : WANConnection :=
  {| Name := Config.Name cfg;
     connSourceIP := Config.SourceIP cfg;
     connDSCP := Config.DSCP cfg;
     Enabled := Config.Enabled cfg |}.

(** *** The measurement client (speedtest-go), as the runner sees it *)

(** A server of the list, with what its three tests will answer and how
    long each takes (nanoseconds). *)
Record Server : Type := {
  srvName : string;
  srvCountry : string;
  srvHost : string;
  srvID : string;
  PingTest : error + (Z * Z);      (* Latency and Jitter, in Milliseconds() *)
  tPing : Z;
  DownloadTest : option error;
  DLSpeedMbps : Q;                 (* DLSpeed.Mbps() after DownloadTest *)
  tDownload : Z;
  UploadTest : option error;
  ULSpeedMbps : Q;                 (* ULSpeed.Mbps() after UploadTest *)
  tUpload : Z
}.

Record ServerList : Type := {
  FindServer : list Z -> error + list Server;
  tFind : Z
}.

Record Client : Type := {
  FetchServers : error + ServerList;
  tFetch : Z
}.

Record UserConfig : Type := {
  Source : string;
  DialerControl : option Dscp.DSCPDialer   (* the dialer whose controlFunc is installed *)
}.

(** The world outside the runner. *)
Record Env : Type := {
  net : Dscp.NetEnv;
  speedtestNew : Z -> UserConfig -> Client;    (* speedtest.New at a given instant *)
  Sscanf_d : string -> option Z;               (* fmt.Sscanf(id, "%d", &n) *)
  Quote : string -> string                     (* the verb %q *)
}.

Record Runner : Type := {
  config : Config.SpeedtestConfig
}.

Definition NewRunner (cfg : option Config.SpeedtestConfig) : Runner :=
  match cfg with
  | Some c => {| config := c |}
  | None => {| config := {| Config.ServerIDs := [] |} |}
  end.

Definition parseServerID (E : Env) (id : string) : Z :=
  match Sscanf_d E id with
  | Some n => n
  | None => 0
  end.

Definition withError (r : Result) (e : string) : Result :=
  {| ConnectionName := ConnectionName r; SourceIP := SourceIP r; DSCP := DSCP r;
     ServerID := ServerID r; ServerName := ServerName r;
     ServerCountry := ServerCountry r; ServerHost := ServerHost r;
     LatencyMs := LatencyMs r; JitterMs := JitterMs r;
     DownloadMbps := DownloadMbps r; UploadMbps := UploadMbps r;
     PacketLossPct := PacketLossPct r;
     Timestamp := Timestamp r; Duration := Duration r; Error := e |}.

(** *** context.Context *)

Inductive Context : Type :=
| Background
| WithCancel (cancelledAt : Z)       (* cancel() is called at this instant *)
| WithDeadline (deadline : Z).

(** [ctx.Err()] at a given instant; non-nil exactly when [ctx.Done()] is
    closed. *)
Definition ctxErr (ctx : Context) (now : Z) : option error :=
  match ctx with
  | Background => None
  | WithCancel t => if t <=? now then Some "context canceled" else None
  | WithDeadline t => if t <=? now then Some "context deadline exceeded" else None
  end.

(** No instant at which the context is done. *)
Definition neverCancelled (ctx : Context) : Prop :=
  forall t : Z, ctxErr ctx t = None.

(** What a call of [Run] hands back: the result, the error, and the clock
    when it returns. *)
Record Ran : Type := {
  ranResult : Result;
  ranErr : option error;
  ranClock : Z
}.

(** [time.Duration.Seconds()]. *)
Definition seconds (ns : Z) : Q := Qmake ns 1000000000.

(** Runner.Run.  The context is a parameter the body never reads.  The
    result is allocated with the start time; each failure sets its Error
    and returns it with the error; the duration is assigned after the
    upload test. *)
Definition Run (r : Runner) (E : Env) (ctx : Context) (conn : WANConnection)
    (now : Z) : Ran :=
  let startTime := now in
  let result :=
    {| ConnectionName := Name conn; SourceIP := connSourceIP conn;
       DSCP := connDSCP conn;
       ServerID := 0; ServerName := empty; ServerCountry := empty; ServerHost := empty;
       LatencyMs := 0; JitterMs := 0; DownloadMbps := 0; UploadMbps := 0;
       PacketLossPct := 0;
       Timestamp := Some startTime; Duration := 0; Error := empty |} in
  match Dscp.NewDSCPDialer (net E) (connDSCP conn) (connSourceIP conn) true with
  | inl err =>
      {| ranResult := withError result ("failed to create DSCP dialer: " ++ err)%string;
         ranErr := Some err; ranClock := now |}
  | inr dscpDialer =>
      let userConfig :=
        {| Source := connSourceIP conn;
           DialerControl := if 0 <? connDSCP conn then Some dscpDialer else None |} in
      let client := speedtestNew E now userConfig in
      let now := now + tFetch client in
      match FetchServers client with
      | inl err =>
          {| ranResult := withError result ("failed to fetch servers: " ++ err)%string;
             ranErr := Some err; ranClock := now |}
      | inr serverList =>
          let serverIDs := Config.ServerIDs (config r) in
          let now := now + tFind serverList in
          match FindServer serverList serverIDs with
          | inl err =>
              {| ranResult := withError result ("failed to find server: " ++ err)%string;
                 ranErr := Some err; ranClock := now |}
          | inr [] =>
              {| ranResult := withError result "no speedtest servers available";
                 ranErr := Some "no speedtest servers available";
                 ranClock := now |}
          | inr (server :: _) =>
              let '(latency, jitter) :=
                match PingTest server with
                | inl _ => (0%Q, 0%Q)
                | inr (l, j) => (inject_Z l, inject_Z j)
                end in
              let now := now + tPing server + tDownload server + tUpload server in
              {| ranResult :=
                   {| ConnectionName := Name conn; SourceIP := connSourceIP conn;
                      DSCP := connDSCP conn;
                      ServerID := parseServerID E (srvID server);
                      ServerName := srvName server;
                      ServerCountry := srvCountry server;
                      ServerHost := srvHost server;
                      LatencyMs := latency; JitterMs := jitter;
                      DownloadMbps := DLSpeedMbps server;
                      UploadMbps := ULSpeedMbps server;
                      PacketLossPct := 0;
                      Timestamp := Some startTime;
                      Duration := seconds (now - startTime);
                      Error := empty |};
                 ranErr := None; ranClock := now |}
          end
      end
  end.

(** *** MultiWANRunner *)

Record MultiWANRunner : Type := {
  connections : list WANConnection;
  runner : Runner;
  parallel : bool
}.

(** Only the enabled connections are kept.  validateSourceIP is consulted
    for a warning in the log and never rejects a connection. *)
Definition NewMultiWANRunner (conns : list Config.ConnectionConfig)
    (cfg : option Config.SpeedtestConfig) : error + MultiWANRunner :=
  let wanConns :=
    map WANConnectionFromConfig (filter Config.Enabled conns) in
  match wanConns with
  | [] => inl "no enabled connections found"
  | _ => inr {| connections := wanConns; runner := NewRunner cfg;
                parallel := false |}
  end.

Definition SetParallel (m : MultiWANRunner) (p : bool) : MultiWANRunner :=
  {| connections := connections m; runner := runner m; parallel := p |}.

(** The result the runners build when [Run] returned an error. *)
Definition errorResult (conn : WANConnection) (err : error) : Result :=
  {| ConnectionName := Name conn; SourceIP := connSourceIP conn;
     DSCP := connDSCP conn;
     ServerID := 0; ServerName := empty; ServerCountry := empty; ServerHost := empty;
     LatencyMs := 0; JitterMs := 0; DownloadMbps := 0; UploadMbps := 0;
     PacketLossPct := 0; Timestamp := None; Duration := 0; Error := err |}.

(** One pass of the loop body shared by both modes: run, and replace the
    result when an error came back. *)
Definition runOne (r : Runner) (E : Env) (ctx : Context)
    (conn : WANConnection) (now : Z) : Result * Z :=
  let ran := Run r E ctx conn now in
  match ranErr ran with
  | Some err => (errorResult conn err, ranClock ran)
  | None => (ranResult ran, ranClock ran)
  end.

Record Swept : Type := {
  results : list Result;
  sweepErr : option error;
  sweepClock : Z
}.

(** The [for] loop of runSequential, [acc] being [results] so far. *)
Fixpoint seqLoop (r : Runner) (E : Env) (ctx : Context)
    (conns : list WANConnection) (acc : list Result) (now : Z) : Swept :=
  match conns with
  | [] => {| results := acc; sweepErr := None; sweepClock := now |}
  | conn :: rest =>
      match ctxErr ctx now with
      | Some err => {| results := acc; sweepErr := Some err; sweepClock := now |}
      | None =>
          let '(result, now') := runOne r E ctx conn now in
          seqLoop r E ctx rest (acc ++ [result]) now'
      end
  end.

Definition runSequential (m : MultiWANRunner) (E : Env) (ctx : Context)
    (now : Z) : Swept :=
  seqLoop (runner m) E ctx (connections m) [] now.

(** Removes the element at index [k] of a non-empty list. *)
Fixpoint pick {A : Type} (k : nat) (x : A) (l : list A) : A * list A :=
  match k, l with
  | O, _ => (x, l)
  | S k', [] => (x, [])
  | S k', y :: l' => let '(z, l'') := pick k' y l' in (z, x :: l'')
  end.

(** The order in which the goroutines send on [resultsChan]: at each step
    the scheduler's next choice designates one of the goroutines that
    have not sent yet. *)
Fixpoint drain {A : Type} (choices : list nat) (pending : list A) (fuel : nat)
    : list A :=
  match fuel, pending with
  | O, _ => []
  | _, [] => []
  | S fuel', x :: l =>
      let k := match choices with [] => O | c :: _ => c end in
      let '(y, rest) := pick (Nat.modulo k (List.length pending)) x l in
      y :: drain (tl choices) rest fuel'
  end.

(** runParallel: every goroutine is launched at [now]; the channel is read
    after all of them have finished. *)
Definition runParallel (m : MultiWANRunner) (E : Env) (ctx : Context)
    (choices : list nat) (now : Z) : Swept :=
  let outs := map (fun c => runOne (runner m) E ctx c now) (connections m) in
  let sent := drain choices outs (List.length outs) in
  {| results := map fst sent;
     sweepErr := None;
     sweepClock := fold_right Z.max now (map snd outs) |}.

Definition RunAll (m : MultiWANRunner) (E : Env) (ctx : Context)
    (choices : list nat) (now : Z) : Swept :=
  if parallel m then runParallel m E ctx choices now
  else runSequential m E ctx now.

Fixpoint findConnection (name : string) (conns : list WANConnection)
    : option WANConnection :=
  match conns with
  | [] => None
  | conn :: rest =>
      if String.eqb (Name conn) name then Some conn
      else findConnection name rest
  end.

(** RunConnection returns a result pointer and an error; the pointer is
    nil when the name is not found. *)
Definition RunConnection (m : MultiWANRunner) (E : Env) (ctx : Context)
    (name : string) (now : Z) : option Result * option error * Z :=
  match findConnection name (connections m) with
  | Some conn =>
      let ran := Run (runner m) E ctx conn now in
      (Some (ranResult ran), ranErr ran, ranClock ran)
  | None =>
      (None, Some ("connection " ++ Quote E name ++ " not found")%string, now)
  end.

(** *** result.go: counting over a collection of results *)

(** SuccessCount: the loop increments an [int] for every result that is
    not an error. *)
Definition SuccessCount (rs : list Result) : Z :=
  fold_left
    (fun count r => if negb (IsError r) then GoInt.wrap (count + 1) else count)
    rs 0.

(** ErrorCount: [len(rs) - rs.SuccessCount()]. *)
Definition ErrorCount (rs : list Result) : Z :=
  GoInt.wrap (Z.of_nat (List.length rs) - SuccessCount rs).

Definition GetConnections (m : MultiWANRunner) : list WANConnection :=
  connections m.

(** QuickTest runs the connection named default: no source address, DSCP
    zero. *)
Definition QuickTest (r : Runner) (E : Env) (ctx : Context) (now : Z) : Ran :=
  Run r E ctx
      {| Name := "default"; connSourceIP := empty; connDSCP := 0; Enabled := true |}
      now.

End Speedtest.

(** ** internal/scheduler: scheduler.go *)

Module Scheduler.

(** *** The cron library (robfig/cron/v3), as the scheduler uses it *)

(** Job wrappers a chain can hold.  [Recover] only catches a panic of the
    job; [SkipIfStillRunning] drops an invocation of an entry whose
    previous invocation has not returned. *)
Inductive JobWrapper : Type := Recover | SkipIfStillRunning.

Definition isSkip (w : JobWrapper) : bool :=
  match w with SkipIfStillRunning => true | Recover => false end.

Record Cron : Type := {
  chain : list JobWrapper;
  parse : string -> option error;     (* the schedule parser; None: parsed *)
  entries : list Z;                   (* IDs of the registered entries *)
  nextID : Z;
  cronRunning : bool
}.

Definition cronNew (ch : list JobWrapper) (p : string -> option error) : Cron :=
  {| chain := ch; parse := p; entries := []; nextID := 0; cronRunning := false |}.

Definition AddFunc (c : Cron) (spec : string) : Z * option error * Cron :=
  match parse c spec with
  | Some err => (0, Some err, c)
  | None =>
      let id := nextID c + 1 in
      (id, None,
       {| chain := chain c; parse := parse c; entries := entries c ++ [id];
          nextID := id; cronRunning := cronRunning c |})
  end.

Definition cronSetRunning (c : Cron) (b : bool) : Cron :=
  {| chain := chain c; parse := parse c; entries := entries c;
     nextID := nextID c; cronRunning := b |}.

(** [c.Entry(id).Job != nil] *)
Definition entryHasJob (c : Cron) (id : Z) : bool :=
  existsb (Z.eqb id) (entries c).

(** *** The scheduler and the sweeps it has launched *)

(** A goroutine executing [SpeedtestJob.Run]: started by cron for an
    entry, or by TriggerNow. *)
Inductive Sweep : Type :=
| Timer (entry : Z)
| Manual.

Definition isTimer (w : Sweep) : bool :=
  match w with Timer _ => true | Manual => false end.

Definition isTimerOf (id : Z) (w : Sweep) : bool :=
  match w with Timer e => Z.eqb e id | Manual => false end.

Record Scheduler : Type := {
  cron : Cron;
  config : Config.SchedulerConfig;
  running : bool;
  jobID : Z;
  inFlight : list Sweep;       (* sweeps started and not yet returned *)
  launched : nat               (* sweeps started so far *)
}.

(** The scheduler NewScheduler builds: a cron whose chain is [Recover]
    alone, nothing registered, nothing running. *)
Definition fresh (p : string -> option error) (c : Config.SchedulerConfig)
    : Scheduler :=
  {| cron := cronNew [Recover] p; config := c;
     running := false; jobID := 0;
     inFlight := []; launched := 0 |}.

Definition NewScheduler (p : string -> option error)
    (cfg : option Config.SchedulerConfig) (hasRunner hasStore : bool)
    : error + Scheduler :=
  match cfg with
  | None => inl "scheduler config is required"
  | Some c =>
      if negb hasRunner then inl "speedtest runner is required"
      else if negb hasStore then inl "storage is required"
      else inr (fresh p c)
  end.

Definition withCron (s : Scheduler) (c : Cron) : Scheduler :=
  {| cron := c; config := config s; running := running s; jobID := jobID s;
     inFlight := inFlight s; launched := launched s |}.

Definition launch (s : Scheduler) (w : Sweep) : Scheduler :=
  {| cron := cron s; config := config s; running := running s;
     jobID := jobID s; inFlight := inFlight s ++ [w];
     launched := S (launched s) |}.

Definition Start (s : Scheduler) : option error * Scheduler :=
  if running s then (Some "scheduler already running", s)
  else if negb (Config.SchedEnabled (config s)) then (None, s)
  else
    match AddFunc (cron s) (Config.Schedule (config s)) with
    | (_, Some err, c) =>
        (Some ("failed to add cron job: " ++ err ++ " (schedule: "
               ++ Config.Schedule (config s) ++ ")")%string,
         withCron s c)
    | (entryID, None, c) =>
        (None,
         {| cron := cronSetRunning c true; config := config s;
            running := true; jobID := entryID;
            inFlight := inFlight s; launched := launched s |})
    end.

(** Stop waits for the jobs cron started; [None] while one of them is
    still in flight. *)
Definition Stop (s : Scheduler) : option Scheduler :=
  if negb (running s) then Some s
  else if existsb isTimer (inFlight s) then None
  else Some {| cron := cronSetRunning (cron s) false; config := config s;
               running := false; jobID := jobID s;
               inFlight := inFlight s; launched := launched s |}.

Definition IsRunning (s : Scheduler) : bool := running s.

Definition TriggerNow (s : Scheduler) : Scheduler :=
  if jobID s =? 0 then s
  else if entryHasJob (cron s) (jobID s) then launch s Manual
  else s.

(** The cron goroutine finds entry [id] due and starts its wrapped job. *)
Definition fire (s : Scheduler) (id : Z) : Scheduler :=
  if negb (cronRunning (cron s)) then s
  else if negb (entryHasJob (cron s) id) then s
  else if existsb isSkip (chain (cron s))
          && existsb (isTimerOf id) (inFlight s) then s
  else launch s (Timer id).

Fixpoint removeNth {A : Type} (k : nat) (l : list A) : option (list A) :=
  match k, l with
  | _, [] => None
  | O, _ :: l' => Some l'
  | S k', x :: l' =>
      match removeNth k' l' with
      | Some l'' => Some (x :: l'')
      | None => None
      end
  end.

(** The [k]-th sweep in flight returns. *)
Definition finish (s : Scheduler) (k : nat) : option Scheduler :=
  match removeNth k (inFlight s) with
  | Some l => Some {| cron := cron s; config := config s; running := running s;
                      jobID := jobID s; inFlight := l; launched := launched s |}
  | None => None
  end.

(** What can happen to a scheduler. *)
Inductive Action : Type :=
| DoStart
| DoStop
| DoTriggerNow
| TimerFires (entry : Z)
| SweepReturns (k : nat).

Definition exec (a : Action) (s : Scheduler) : option Scheduler :=
  match a with
  | DoStart => Some (snd (Start s))
  | DoStop => Stop s
  | DoTriggerNow => Some (TriggerNow s)
  | TimerFires id => Some (fire s id)
  | SweepReturns k => finish s k
  end.

Fixpoint execAll (acts : list Action) (s : Scheduler) : option Scheduler :=
  match acts with
  | [] => Some s
  | a :: rest =>
      match exec a s with
      | Some s' => execAll rest s'
      | None => None
      end
  end.

(** The states a scheduler built by NewScheduler can be in. *)
Definition reachable (p : string -> option error)
    (cfg : Config.SchedulerConfig) (s : Scheduler) : Prop :=
  exists s0 acts,
    NewScheduler p (Some cfg) true true = inr s0 /\ execAll acts s0 = Some s.

(** What holds of every scheduler NewScheduler built from [cfg]: its cron
    chain is the one given at construction, its configuration is
    unchanged, and a non-zero job ID names a registered cron entry. *)
Definition wellFormedFor (cfg : Config.SchedulerConfig) (s : Scheduler) : Prop :=
  chain (cron s) = [Recover]
  /\ config s = cfg
  /\ (jobID s <> 0 -> entryHasJob (cron s) (jobID s) = true).

(** [n] calls of Start in a row: the errors returned, and the final
    state. *)
Fixpoint startTimes (n : nat) (s : Scheduler) : list (option error) * Scheduler :=
  match n with
  | O => ([], s)
  | S n' =>
      let '(err, s') := Start s in
      let '(errs, s'') := startTimes n' s' in
      (err :: errs, s'')
  end.

End Scheduler.

(** ** internal/storage: models.go *)

Module Storage.

Record TestResult : Type := {
  ID : Z;
  ConnectionName : string;
  ServerID : Z;
  ServerName : string;
  ServerCountry : string;
  ServerHost : string;
  LatencyMs : Q;
  JitterMs : Q;
  DownloadMbps : Q;
  UploadMbps : Q;
  PacketLossPct : Q;
  SourceIP : string;
  DSCP : Z;
  Error : string;
  CreatedAt : option Z        (* None is the zero time.Time *)
}.

Definition FromSpeedtestResult (r : Speedtest.Result) : TestResult :=
  {| ID := 0;
     ConnectionName := Speedtest.ConnectionName r;
     ServerID := Speedtest.ServerID r;
     ServerName := Speedtest.ServerName r;
     ServerCountry := Speedtest.ServerCountry r;
     ServerHost := Speedtest.ServerHost r;
     LatencyMs := Speedtest.LatencyMs r;
     JitterMs := Speedtest.JitterMs r;
     DownloadMbps := Speedtest.DownloadMbps r;
     UploadMbps := Speedtest.UploadMbps r;
     PacketLossPct := Speedtest.PacketLossPct r;
     SourceIP := Speedtest.SourceIP r;
     DSCP := Speedtest.DSCP r;
     Error := Speedtest.Error r;
     CreatedAt := Speedtest.Timestamp r |}.

Definition ToSpeedtestResult (r : TestResult) : Speedtest.Result :=
  {| Speedtest.ConnectionName := ConnectionName r;
     Speedtest.SourceIP := SourceIP r;
     Speedtest.DSCP := DSCP r;
     Speedtest.ServerID := ServerID r;
     Speedtest.ServerName := ServerName r;
     Speedtest.ServerCountry := ServerCountry r;
     Speedtest.ServerHost := ServerHost r;
     Speedtest.LatencyMs := LatencyMs r;
     Speedtest.JitterMs := JitterMs r;
     Speedtest.DownloadMbps := DownloadMbps r;
     Speedtest.UploadMbps := UploadMbps r;
     Speedtest.PacketLossPct := PacketLossPct r;
     Speedtest.Timestamp := CreatedAt r;
     Speedtest.Duration := 0;
     Speedtest.Error := Error r |}.

Definition IsError (r : TestResult) : bool := negb (String.eqb (Error r) empty).

(** A storage backend, as its callers see it: SaveResult either returns an
    error or takes the row.  [refuses] is the backend's decision, given the
    rows it holds, the context and the clock. *)
Record Store : Type := {
  rows : list TestResult;
  refuses : list TestResult -> Speedtest.Context -> Z -> TestResult -> option error
}.

Definition SaveResult (st : Store) (ctx : Speedtest.Context) (now : Z)
    (r : TestResult) : option error * Store :=
  match refuses st (rows st) ctx now r with
  | Some err => (Some err, st)
  | None => (None, {| rows := rows st ++ [r]; refuses := refuses st |})
  end.

End Storage.

(** ** internal/api: prometheus.go *)

Module Metrics.

(** The registry: counters by the number of [Inc] calls, gauges by the
    value last [Set] (None when never set).  Speed, latency and jitter are
    labelled by connection and server, the others by connection. *)
Record Registry : Type := {
  downloadSpeed : string -> string -> option Q;
  uploadSpeed : string -> string -> option Q;
  latency : string -> string -> option Q;
  jitter : string -> string -> option Q;
  testTimestamp : string -> option Q;
  testDuration : string -> option Q;
  testErrors : string -> nat;
  testsTotal : string -> nat
}.

Definition emptyRegistry : Registry :=
  {| downloadSpeed := fun _ _ => None; uploadSpeed := fun _ _ => None;
     latency := fun _ _ => None; jitter := fun _ _ => None;
     testTimestamp := fun _ => None; testDuration := fun _ => None;
     testErrors := fun _ => O; testsTotal := fun _ => O |}.

Definition inc (counter : string -> nat) (c : string) : string -> nat :=
  fun k => if String.eqb k c then S (counter k) else counter k.

Definition set1 (gauge : string -> option Q) (c : string) (v : Q)
    : string -> option Q :=
  fun k => if String.eqb k c then Some v else gauge k.

Definition set2 (gauge : string -> string -> option Q) (c srv : string) (v : Q)
    : string -> string -> option Q :=
  fun k1 k2 => if String.eqb k1 c && String.eqb k2 srv then Some v else gauge k1 k2.

(** [time.Time.Unix()]: whole seconds since the epoch; the zero time is
    year 1. *)
Definition Unix (t : option Z) : Z :=
  match t with
  | Some ns => ns / 1000000000
  | None => -62135596800
  end.

Definition UpdateMetricsForResult (reg : Registry) (result : Speedtest.Result)
    : Registry :=
  let c := Speedtest.ConnectionName result in
  let srv := Speedtest.ServerName result in
  let total := inc (testsTotal reg) c in
  if Speedtest.IsError result then
    {| downloadSpeed := downloadSpeed reg; uploadSpeed := uploadSpeed reg;
       latency := latency reg; jitter := jitter reg;
       testTimestamp := testTimestamp reg; testDuration := testDuration reg;
       testErrors := inc (testErrors reg) c; testsTotal := total |}
  else
    {| downloadSpeed := set2 (downloadSpeed reg) c srv (Speedtest.DownloadMbps result);
       uploadSpeed := set2 (uploadSpeed reg) c srv (Speedtest.UploadMbps result);
       latency := set2 (latency reg) c srv (Speedtest.LatencyMs result);
       jitter := set2 (jitter reg) c srv (Speedtest.JitterMs result);
       testTimestamp :=
         set1 (testTimestamp reg) c (inject_Z (Unix (Speedtest.Timestamp result)));
       testDuration := set1 (testDuration reg) c (Speedtest.Duration result);
       testErrors := testErrors reg; testsTotal := total |}.

Definition UpdateMetrics (reg : Registry) (results : list Speedtest.Result)
    : Registry :=
  fold_left UpdateMetricsForResult results reg.

End Metrics.

(** ** internal/scheduler: jobs.go, and the API handler that does the same *)

Module Job.

Record SpeedtestJob : Type := {
  runner : Speedtest.MultiWANRunner
}.

(** The storage and the registry after a job, with what the job returned
    and counted. *)
Record Done : Type := {
  jobErr : option error;
  store : Storage.Store;
  registry : Metrics.Registry;
  savedCount : Z;
  errorCount : Z;
  jobClock : Z
}.

(** The loop of RunWithContext over the results: metrics first, then the
    save; a refused save is counted and the loop goes on. *)
Fixpoint saveLoop (ctx : Speedtest.Context) (now : Z)
    (results : list Speedtest.Result) (st : Storage.Store)
    (reg : Metrics.Registry) (saved errors : Z)
    : Storage.Store * Metrics.Registry * Z * Z :=
  match results with
  | [] => (st, reg, saved, errors)
  | result :: rest =>
      let reg' := Metrics.UpdateMetricsForResult reg result in
      let dbResult := Storage.FromSpeedtestResult result in
      match Storage.SaveResult st ctx now dbResult with
      | (Some _, st') =>
          saveLoop ctx now rest st' reg' saved (GoInt.wrap (errors + 1))
      | (None, st') =>
          saveLoop ctx now rest st' reg' (GoInt.wrap (saved + 1)) errors
      end
  end.

Definition RunWithContext (j : SpeedtestJob) (E : Speedtest.Env)
    (choices : list nat) (st : Storage.Store) (reg : Metrics.Registry)
    (ctx : Speedtest.Context) (now : Z) : Done :=
  let sw := Speedtest.RunAll (runner j) E ctx choices now in
  match Speedtest.sweepErr sw with
  | Some err =>
      {| jobErr := Some err; store := st; registry := reg;
         savedCount := 0; errorCount := 0; jobClock := Speedtest.sweepClock sw |}
  | None =>
      let '(st', reg', saved, errors) :=
        saveLoop ctx (Speedtest.sweepClock sw) (Speedtest.results sw) st reg 0 0 in
      {| jobErr := None; store := st'; registry := reg';
         savedCount := saved; errorCount := errors;
         jobClock := Speedtest.sweepClock sw |}
  end.

(** [context.WithTimeout(context.Background(), d)] at a given instant. *)
Definition WithTimeout (now d : Z) : Speedtest.Context :=
  Speedtest.WithDeadline (now + d).

Definition minute : Z := 60 * 1000000000.

(** SpeedtestJob.Run, the cron entry point: ten minutes for the sweep; the
    error is logged, not returned. *)
Definition Run (j : SpeedtestJob) (E : Speedtest.Env) (choices : list nat)
    (st : Storage.Store) (reg : Metrics.Registry) (now : Z)
    : Storage.Store * Metrics.Registry :=
  let d := RunWithContext j E choices st reg (WithTimeout now (10 * minute)) now in
  (store d, registry d).

(** The loop of handleTriggerTest that saves the results. *)
Fixpoint saveAll (ctx : Speedtest.Context) (now : Z)
    (results : list Speedtest.Result) (st : Storage.Store) : Storage.Store :=
  match results with
  | [] => st
  | result :: rest =>
      saveAll ctx now rest
              (snd (Storage.SaveResult st ctx now (Storage.FromSpeedtestResult result)))
  end.

(** The goroutine of handleTriggerTest: five minutes for the sweep; on an
    error nothing is saved; otherwise every result is saved, then the
    metrics are updated. *)
Definition triggerTest (m : Speedtest.MultiWANRunner) (E : Speedtest.Env)
    (choices : list nat) (st : Storage.Store) (reg : Metrics.Registry) (now : Z)
    : Storage.Store * Metrics.Registry :=
  let ctx := WithTimeout now (5 * minute) in
  let sw := Speedtest.RunAll m E ctx choices now in
  match Speedtest.sweepErr sw with
  | Some _ => (st, reg)
  | None =>
      (saveAll ctx (Speedtest.sweepClock sw) (Speedtest.results sw) st,
       Metrics.UpdateMetrics reg (Speedtest.results sw))
  end.

End Job.

(** ** Concrete hosts, measurement clients and configurations

    Used to evaluate the definitions above on specific inputs. *)

Module Sample.

Import Dscp.

Definition knownIP (s : string) : bool :=
  String.eqb s "192.168.1.100" || String.eqb s "192.168.2.100"
  || String.eqb s "10.255.255.255".

Definition family (network address : string) : string :=
  if String.eqb network "tcp" then "tcp4"
  else if String.eqb network "udp" then "udp4"
  else network.

Definition unassignable (a : LocalAddr) : option error :=
  match a with
  | TCPAddr ip | UDPAddr ip =>
      if String.eqb ip "10.255.255.255"
      then Some "bind: cannot assign requested address"
      else None
  end.

(** A Linux host on which the process may set the TOS byte. *)
Definition linuxHost : NetEnv :=
  {| platform := Unix; ParseIP := knownIP; openSocket := fun _ _ _ => None;
     controlNetwork := family;
     rawControl := None; SetsockoptInt := fun _ => None;
     bindLocal := unassignable; connect := fun _ _ => None |}.

(** A Unix host on which setsockopt refuses the option. *)
Definition restrictedHost : NetEnv :=
  {| platform := Unix; ParseIP := knownIP; openSocket := fun _ _ _ => None;
     controlNetwork := family;
     rawControl := None;
     SetsockoptInt := fun _ => Some "protocol not available";
     bindLocal := unassignable; connect := fun _ _ => None |}.


(** Expedited Forwarding, no source address. *)
Definition ef : DSCPDialer :=
  {| DSCP := 46; SourceIP := empty; Logger := true |}.

Import Speedtest.

Definition second : Z := 1000000000.

(** A server whose three tests succeed. *)
Definition fastServer : Server :=
  {| srvName := "Frankfurt"; srvCountry := "Germany";
     srvHost := "speedtest.example.net:8080"; srvID := "4242";
     PingTest := inr (12, 3); tPing := 2 * second;
     DownloadTest := None; DLSpeedMbps := 935 # 10; tDownload := 10 * second;
     UploadTest := None; ULSpeedMbps := 41 # 1; tUpload := 10 * second |}.

(** A server that is listed but answers none of the three tests. *)
Definition deafServer : Server :=
  {| srvName := "Nowhere"; srvCountry := "Germany";
     srvHost := "deaf.example.net:8080"; srvID := "n/a";
     PingTest := inl "ping: i/o timeout"; tPing := 4 * second;
     DownloadTest := Some "download: i/o timeout"; DLSpeedMbps := 0;
     tDownload := 4 * second;
     UploadTest := Some "upload: i/o timeout"; ULSpeedMbps := 0;
     tUpload := 4 * second |}.

Definition listing (servers : list Server) : Client :=
  {| FetchServers := inr {| FindServer := fun _ => inr servers; tFind := second |};
     tFetch := second |}.

(** The client by source address: 192.168.1.100 reaches the fast server,
    192.168.2.100 only the deaf one, 10.255.255.255 cannot be bound. *)
Definition clientFor (u : UserConfig) : Client :=
  if String.eqb (Source u) "10.255.255.255" then
    {| FetchServers := inl "dial tcp: bind: cannot assign requested address";
       tFetch := 1000000 |}
  else if String.eqb (Source u) "192.168.2.100" then listing [deafServer]
  else listing [fastServer].

(** The verb %q on a string of plain letters and digits: the string between
    double quotes. *)
Definition plainQuote (s : string) : string := (quote ++ s ++ quote)%string.

Definition world : Env :=
  {| net := linuxHost;
     speedtestNew := fun _ u => clientFor u;
     Sscanf_d := fun s => if String.eqb s "4242" then Some 4242 else None;
     Quote := plainQuote |}.

Definition wanA : WANConnection :=
  {| Name := "A"; connSourceIP := "192.168.1.100"; connDSCP := 0; Enabled := true |}.

Definition wanB : WANConnection :=
  {| Name := "B"; connSourceIP := "192.168.2.100"; connDSCP := 46; Enabled := true |}.

Definition wanC : WANConnection :=
  {| Name := "C"; connSourceIP := "10.255.255.255"; connDSCP := 0; Enabled := true |}.

Definition auto : Runner := NewRunner None.

Definition threeWANs : MultiWANRunner :=
  {| connections := [wanA; wanB; wanC]; runner := auto; parallel := false |}.

Definition threeWANsParallel : MultiWANRunner := SetParallel threeWANs true.

(** The standard five-field parser, on the one expression used here. *)
Definition cronParser (spec : string) : option error :=
  if String.eqb spec "*/30 * * * *" then None
  else Some "expected exactly 5 fields".

Definition everyHalfHour : Config.SchedulerConfig :=
  {| Config.SchedEnabled := true; Config.Schedule := "*/30 * * * *" |}.

Definition switchedOff : Config.SchedulerConfig :=
  {| Config.SchedEnabled := false; Config.Schedule := "*/30 * * * *" |}.

(** A server whose download test takes eleven minutes, and a world in
    which every client lists only that server. *)
Definition crawlingServer : Server :=
  {| srvName := "Faraway"; srvCountry := "Germany";
     srvHost := "slow.example.net:8080"; srvID := "7";
     PingTest := inr (480, 90); tPing := 2 * second;
     DownloadTest := None; DLSpeedMbps := 1 # 10; tDownload := 660 * second;
     UploadTest := None; ULSpeedMbps := 1 # 10; tUpload := 10 * second |}.

Definition sluggishWorld : Env :=
  {| net := linuxHost;
     speedtestNew := fun _ _ => listing [crawlingServer];
     Sscanf_d := fun _ => Some 7;
     Quote := plainQuote |}.

(** A backend that takes every row, and one that refuses the rows of
    connection B. *)
Definition diskStore : Storage.Store :=
  {| Storage.rows := []; Storage.refuses := fun _ _ _ _ => None |}.

Definition pickyStore : Storage.Store :=
  {| Storage.rows := [];
     Storage.refuses := fun _ _ _ r =>
       if String.eqb (Storage.ConnectionName r) "B"
       then Some "failed to insert result: database is locked" else None |}.

Definition cfgA : Config.ConnectionConfig :=
  {| Config.Name := "A"; Config.SourceIP := "192.168.1.100"; Config.DSCP := 0;
     Config.Enabled := true |}.

Definition cfgB : Config.ConnectionConfig :=
  {| Config.Name := "B"; Config.SourceIP := "192.168.2.100"; Config.DSCP := 46;
     Config.Enabled := true |}.

Definition cfgC : Config.ConnectionConfig :=
  {| Config.Name := "C"; Config.SourceIP := empty; Config.DSCP := 0;
     Config.Enabled := false |}.

Definition loader : Config.LoaderEnv :=
  {| Config.loaderParseIP := knownIP;
     Config.SplitHostPort := fun s =>
       if String.eqb s "127.0.0.1:8080" then None
       else Some "missing port in address";
     Config.Quote := plainQuote;
     Config.Stat := fun p => String.eqb p "./config.yml" || String.eqb p "./flowgauge.yaml";
     Config.Getenv := fun _ => empty |}.

(** The default configuration with the connections A, B and the disabled C. *)
Definition siteFile : Config.File :=
  {| Config.General := Config.General Config.NewDefault;
     Config.Storage := Config.Storage Config.NewDefault;
     Config.Webserver := Config.Webserver Config.NewDefault;
     Config.Connections := [cfgA; cfgB; cfgC];
     Config.Scheduler := Config.Scheduler Config.NewDefault;
     Config.Speedtest := Config.Speedtest Config.NewDefault |}.

End Sample.

(** * Properties *)

(** ** Go integers *)

Lemma wrap_small (z : Z) : - 2 ^ 63 <= z < 2 ^ 63 -> GoInt.wrap z = z.
Proof.
  intros H. unfold GoInt.wrap.
  rewrite Z.mod_small; lia.
Qed.

Lemma shl2_dscp (d : Z) : 0 <= d <= 63 -> GoInt.shl d 2 = Z.shiftl d 2.
Proof.
  intros H. unfold GoInt.shl.
  apply wrap_small. rewrite Z.shiftl_mul_pow2 by lia. lia.
Qed.

Lemma shr2_shl2 (d : Z) : GoInt.shr (Z.shiftl d 2) 2 = d.
Proof.
  unfold GoInt.shr.
  rewrite Z.shiftr_shiftl_l by lia. apply Z.shiftl_0_r.
Qed.

(** ** The DSCP dialer *)

Section DialerFacts.

Import Dscp.

Variable E : NetEnv.
Variable d : DSCPDialer.
Variables network address : string.

Lemma tos_roundtrip : 0 <= DSCP d <= 63 -> TOSToDSCP (DSCPToTOS (DSCP d)) = DSCP d.
Proof.
  intros H. unfold TOSToDSCP, DSCPToTOS.
  rewrite shl2_dscp by exact H. apply shr2_shl2.
Qed.

(** Whatever a control function leaves on the socket carries the value
    [DSCP << 2]. *)
Lemma applied_value (o : SockOpt) :
  In o (ctlApplied (controlFunc E d network)) -> optValue o = DSCPToTOS (DSCP d).
Proof.
  unfold controlFunc, controlFuncUnix, controlFuncWindows.
  destruct (platform E); [ | intros [] ].
  destruct (rawControl E); [ intros [] | ].
  match goal with
  | |- context [SetsockoptInt E ?x] => destruct (SetsockoptInt E x)
  end; [ intros [] | ].
  cbn. intros [<- | []].
  destruct (_ || _); reflexivity.
Qed.

(** The options of a connection are those the control function applied,
    when one was installed. *)
Lemma netDial_opts (local : option LocalAddr) (control : option DSCPDialer)
    (log : list LogEntry) (c : Conn) :
  dialResult (netDial E local control network address log) = inr c ->
  connOpts c =
    match control with
    | Some d' => ctlApplied (controlFunc E d' (controlNetwork E network address))
    | None => []
    end.
Proof.
  unfold netDial.
  destruct (openSocket E local network address); [ discriminate | ].
  set (r := match control with Some _ => _ | None => _ end).
  assert (Hr : ctlApplied r =
               match control with
               | Some d' => ctlApplied (controlFunc E d' (controlNetwork E network address))
               | None => []
               end) by (subst r; destruct control; reflexivity).
  rewrite <- Hr. clear Hr.
  destruct (ctlErr r); [ discriminate | ].
  destruct (match local with Some _ => _ | None => _ end); [ discriminate | ].
  destruct (connect E network address); [ discriminate | ].
  cbn. intros H. injection H as <-. reflexivity.
Qed.

Lemma DialContext_opts (c : Conn) :
  dialResult (DialContext E d network address) = inr c ->
  connOpts c =
    if 0 <? DSCP d
    then ctlApplied (controlFunc E d (controlNetwork E network address))
    else [].
Proof.
  unfold DialContext.
  destruct (String.eqb (SourceIP d) empty).
  - intros H. apply netDial_opts in H. rewrite H.
    destruct (0 <? DSCP d); reflexivity.
  - destruct (negb (ParseIP E (SourceIP d))); [ discriminate | ].
    intros H. apply netDial_opts in H. rewrite H.
    destruct (0 <? DSCP d); reflexivity.
Qed.

(** On the Unix build a connection made with a positive DSCP carries
    exactly one option. *)
Lemma unix_dial_marks (c : Conn) :
  platform E = Unix -> 0 < DSCP d ->
  dialResult (DialContext E d network address) = inr c ->
  exists o, connOpts c = [o]
            /\ In o (ctlApplied (controlFunc E d (controlNetwork E network address))).
Proof.
  intros HU Hd H.
  pose proof (DialContext_opts c H) as Ho.
  assert (Hpos : (0 <? DSCP d) = true) by (apply Z.ltb_lt; exact Hd).
  rewrite Hpos in Ho.
  (* the dial succeeded, so the control function returned no error *)
  assert (Hok : ctlErr (controlFunc E d (controlNetwork E network address)) = None).
  { revert H. unfold DialContext, netDial. rewrite Hpos.
    destruct (ctlErr (controlFunc E d (controlNetwork E network address)));
      [ | reflexivity ].
    destruct (String.eqb (SourceIP d) empty).
    - destruct (openSocket E _ network address); discriminate.
    - destruct (negb (ParseIP E (SourceIP d))); [ discriminate | ].
      destruct (openSocket E _ network address); discriminate. }
  revert Ho Hok. unfold controlFunc, controlFuncUnix. rewrite HU.
  destruct (rawControl E); [ discriminate | ].
  match goal with
  | |- context [SetsockoptInt E ?x] => set (req := x); destruct (SetsockoptInt E req)
  end; [ discriminate | ].
  cbn. intros Ho _. exists req. split; [ exact Ho | left; reflexivity ].
Qed.

End DialerFacts.

(** C7.  For every DSCP value [d] with [0 < d <= 63]: the TOS byte is
    [d << 2]; decoding it with [TOSToDSCP] gives [d] back; every option a
    control function sets on the socket has the value [d << 2], which
    decodes to [d]; and on the Unix build every connection the dialer
    establishes carries exactly one such option. *)
Theorem dscp_marking_decodes :
  forall (E : Dscp.NetEnv) (d : Dscp.DSCPDialer) (network address : string),
    0 < Dscp.DSCP d <= 63 ->
    Dscp.DSCPToTOS (Dscp.DSCP d) = Z.shiftl (Dscp.DSCP d) 2
    /\ Dscp.TOSToDSCP (Dscp.DSCPToTOS (Dscp.DSCP d)) = Dscp.DSCP d
    /\ (forall o, In o (Dscp.ctlApplied (Dscp.controlFunc E d network)) ->
          Dscp.optValue o = Z.shiftl (Dscp.DSCP d) 2
          /\ Dscp.TOSToDSCP (Dscp.optValue o) = Dscp.DSCP d)
    /\ (Dscp.platform E = Dscp.Unix ->
        forall c, Dscp.dialResult (Dscp.DialContext E d network address) = inr c ->
          exists o, Dscp.connOpts c = [o]
                    /\ Dscp.optValue o = Z.shiftl (Dscp.DSCP d) 2
                    /\ Dscp.TOSToDSCP (Dscp.optValue o) = Dscp.DSCP d).
Proof.
  intros E d network address Hd.
  assert (Htos : Dscp.DSCPToTOS (Dscp.DSCP d) = Z.shiftl (Dscp.DSCP d) 2)
    by (apply shl2_dscp; lia).
  assert (Hrt : Dscp.TOSToDSCP (Dscp.DSCPToTOS (Dscp.DSCP d)) = Dscp.DSCP d)
    by (apply tos_roundtrip; lia).
  repeat split; try assumption.
  - rewrite <- Htos. eapply applied_value; eassumption.
  - rewrite (applied_value E d network o) by assumption. exact Hrt.
  - intros HU c Hc.
    destruct (unix_dial_marks E d network address c HU (proj1 Hd) Hc)
      as (o & Ho & Hin).
    exists o. pose proof (applied_value E d _ o Hin) as Hv.
    rewrite Hv. auto.
Qed.

(** The Expedited Forwarding dialer on a Linux host: the TCP connection
    carries IP_TOS = 184, which decodes to 46. *)
Lemma dscp_marking_decodes_ef :
  0 < 46 <= 63
  /\ Dscp.dialResult (Dscp.DialContext Sample.linuxHost Sample.ef "tcp" "198.51.100.7:8080")
     = inr {| Dscp.connLocal := None; Dscp.connOpts := [Dscp.IP_TOS 184] |}
  /\ Dscp.TOSToDSCP 184 = 46
  /\ Dscp.TOSToDSCP (Dscp.DSCPToTOS (Dscp.DSCP Sample.ef)) = 46.
Proof.
  split; [ lia | ].
  split; [ reflexivity | ].
  split; [ reflexivity | ].
  exact (proj1 (proj2 (dscp_marking_decodes Sample.linuxHost Sample.ef
                         "tcp" "198.51.100.7:8080" ltac:(cbn; lia)))).
Defined.

Section UnsupportedMarking.

Import Dscp.

Variable E : NetEnv.
Variable d : DSCPDialer.
Variables network address : string.



(** The log of a dial: the lines written before it, and the lines of the
    control function when a socket was created for it to run on. *)
Lemma netDial_log (local : option LocalAddr) (control : option DSCPDialer)
    (log : list LogEntry) :
  dialLog (netDial E local control network address log)
  = log ++ match openSocket E local network address, control with
           | None, Some d' =>
               ctlLog (controlFunc E d' (controlNetwork E network address))
           | _, _ => []
           end.
Proof.
  unfold netDial.
  destruct (openSocket E local network address).
  { cbn. rewrite app_nil_r. reflexivity. }
  destruct control as [d' | ]; cbn.
  - destruct (ctlErr _); [ reflexivity | ].
    destruct (match local with Some _ => _ | None => _ end); [ reflexivity | ].
    destruct (connect E network address); reflexivity.
  - destruct (match local with Some _ => _ | None => _ end); [ reflexivity | ].
    destruct (connect E network address); reflexivity.
Qed.








End UnsupportedMarking.




(** ** Runner.Run *)

Section RunFacts.

Import Speedtest.

Variable r : Runner.
Variable E : Env.
Variable ctx : Context.
Variable conn : WANConnection.
Variable now : Z.

(** The shape of what Run returns, by whether it returns an error. *)
Lemma Run_shape :
  let ran := Run r E ctx conn now in
  ConnectionName (ranResult ran) = Name conn
  /\ Timestamp (ranResult ran) = Some now
  /\ match ranErr ran with
     | Some _ =>
         IsError (ranResult ran) = true
         /\ unmeasured (ranResult ran)
         /\ Duration (ranResult ran) = 0%Q
     | None =>
         Error (ranResult ran) = empty
         /\ PacketLossPct (ranResult ran) = 0%Q
         /\ Duration (ranResult ran) = seconds (ranClock ran - now)
     end.
Proof.
  unfold Run.
  destruct (Dscp.NewDSCPDialer _ _ _ _) as [err | dialer]; cbn.
  { repeat split. }
  destruct (FetchServers _) as [err | serverList]; cbn.
  { repeat split. }
  destruct (FindServer _ _) as [err | [ | server others]]; cbn.
  { repeat split. }
  { repeat split. }
  destruct (PingTest server) as [err | [l j]]; cbn; repeat split.
Qed.

(** In a sweep, the result of a path is Run's result, or the substitute
    built from Run's error. *)
Lemma runOne_name : ConnectionName (fst (runOne r E ctx conn now)) = Name conn.
Proof.
  unfold runOne. pose proof Run_shape as (Hn & _).
  destruct (ranErr _); cbn; [ reflexivity | exact Hn ].
Qed.

Lemma runOne_failed_unmeasured :
  IsError (fst (runOne r E ctx conn now)) = true ->
  unmeasured (fst (runOne r E ctx conn now)).
Proof.
  unfold runOne. pose proof Run_shape as (_ & _ & H).
  destruct (ranErr _); cbn.
  - intros _. repeat split.
  - destruct H as (He & _). unfold IsError. rewrite He. discriminate.
Qed.

(** Run never reads its context. *)
Lemma Run_ignores_ctx (ctx' : Context) : Run r E ctx' conn now = Run r E ctx conn now.
Proof. reflexivity. Qed.

End RunFacts.

(** C3, as stated, fails.  Through 192.168.2.100 only a server that answers
    none of the three tests is reachable: Run returns no error, an empty
    failure description, and every measurement field zero. *)
Lemma silent_zero_result :
  ~ (forall (r : Speedtest.Runner) (E : Speedtest.Env) (ctx : Speedtest.Context)
            (conn : Speedtest.WANConnection) (now : Z),
       let res := Speedtest.ranResult (Speedtest.Run r E ctx conn now) in
       xorb (Speedtest.measured res) (Speedtest.IsError res) = true).
Proof.
  intros H.
  specialize (H Sample.auto Sample.world Speedtest.Background Sample.wanB 0).
  vm_compute in H. discriminate H.
Qed.

(** C3, amended.  A Result that Run returns with an error has a non-empty
    failure description and all five measurement fields zero; a Result that
    Run returns without an error has an empty failure description (its
    packet loss is zero, and latency, jitter and rates are whatever the
    sub-measurements left); and every Result of a sweep that has a failure
    description has all five measurement fields zero. *)
Theorem result_failure_shape :
  forall (r : Speedtest.Runner) (E : Speedtest.Env) (ctx : Speedtest.Context)
         (conn : Speedtest.WANConnection) (now : Z),
    match Speedtest.ranErr (Speedtest.Run r E ctx conn now) with
    | Some _ =>
        Speedtest.IsError (Speedtest.ranResult (Speedtest.Run r E ctx conn now)) = true
        /\ Speedtest.unmeasured (Speedtest.ranResult (Speedtest.Run r E ctx conn now))
    | None =>
        Speedtest.IsError (Speedtest.ranResult (Speedtest.Run r E ctx conn now)) = false
        /\ Speedtest.PacketLossPct
             (Speedtest.ranResult (Speedtest.Run r E ctx conn now)) = 0%Q
    end
    /\ (Speedtest.IsError (fst (Speedtest.runOne r E ctx conn now)) = true ->
        Speedtest.unmeasured (fst (Speedtest.runOne r E ctx conn now))).
Proof.
  intros r E ctx conn now. split.
  - pose proof (Run_shape r E ctx conn now) as (_ & _ & H). cbv zeta in H.
    destruct (Speedtest.ranErr _).
    + destruct H as (H1 & H2 & _). split; assumption.
    + destruct H as (H1 & H2 & _). split; [ | assumption ].
      unfold Speedtest.IsError. rewrite H1. reflexivity.
  - apply runOne_failed_unmeasured.
Qed.

(** The unassignable source address 10.255.255.255: the sweep's Result for
    that path has a failure description and nothing measured. *)
Lemma result_failure_shape_unassignable :
  Speedtest.IsError
    (fst (Speedtest.runOne Sample.auto Sample.world Speedtest.Background Sample.wanC 0))
  = true
  /\ Speedtest.unmeasured
       (fst (Speedtest.runOne Sample.auto Sample.world Speedtest.Background Sample.wanC 0)).
Proof.
  split; [ reflexivity | ].
  apply (proj2 (result_failure_shape Sample.auto Sample.world Speedtest.Background
                  Sample.wanC 0)).
  reflexivity.
Defined.

(** ** Errors of a path: Run, RunConnection and RunAll *)

Section SweepErrors.

Import Speedtest.

Variable E : Env.
Variable ctx : Context.

(** The only error the sequential loop returns is the context's. *)
Lemma seqLoop_err (r : Runner) (conns : list WANConnection) :
  forall (acc : list Result) (now : Z),
    sweepErr (seqLoop r E ctx conns acc now) = None
    \/ exists t, ctxErr ctx t = sweepErr (seqLoop r E ctx conns acc now)
                 /\ sweepErr (seqLoop r E ctx conns acc now) <> None.
Proof.
  induction conns as [ | conn rest IH]; intros acc now; cbn.
  - left. reflexivity.
  - destruct (ctxErr ctx now) as [err | ] eqn:Hc; cbn.
    + right. exists now. split; [ exact Hc | discriminate ].
    + destruct (runOne r E ctx conn now) as [result now']. apply IH.
Qed.

Lemma runOne_error (r : Runner) (conn : WANConnection) (now : Z) (err : error) :
  ranErr (Run r E ctx conn now) = Some err ->
  fst (runOne r E ctx conn now) = errorResult conn err.
Proof. intros H. unfold runOne. rewrite H. reflexivity. Qed.

End SweepErrors.

(** C4, as stated, fails.  With the unassignable source address
    10.255.255.255 the server fetch fails; Run returns that error to its
    caller, and so does RunConnection. *)
Lemma path_error_reaches_caller :
  ~ (forall (r : Speedtest.Runner) (E : Speedtest.Env) (ctx : Speedtest.Context)
            (conn : Speedtest.WANConnection) (now : Z),
       Speedtest.ranErr (Speedtest.Run r E ctx conn now) = None)
  /\ ~ (forall (m : Speedtest.MultiWANRunner) (E : Speedtest.Env)
               (ctx : Speedtest.Context) (name : string) (now : Z),
          Speedtest.findConnection name (Speedtest.connections m) <> None ->
          snd (fst (Speedtest.RunConnection m E ctx name now)) = None).
Proof.
  split; intros H.
  - specialize (H Sample.auto Sample.world Speedtest.Background Sample.wanC 0).
    vm_compute in H. discriminate H.
  - specialize (H Sample.threeWANs Sample.world Speedtest.Background "C" 0).
    vm_compute in H. discriminate H. discriminate.
Qed.

(** C4, amended.  RunAll never returns the error of a path: its error is
    nil, or (sequential mode only) the error of the context.  When Run
    returns an error, Run's own Result has a non-empty failure description
    and the sweep stores a Result whose failure description is that error.
    Run and RunConnection do return the error to their caller:
    RunConnection hands back Run's result and error unchanged. *)
Theorem path_errors_stop_at_RunAll :
  forall (m : Speedtest.MultiWANRunner) (E : Speedtest.Env)
         (ctx : Speedtest.Context) (choices : list nat) (now : Z),
    (Speedtest.sweepErr (Speedtest.RunAll m E ctx choices now) = None
     \/ (Speedtest.parallel m = false
         /\ exists t, Speedtest.ctxErr ctx t
                      = Speedtest.sweepErr (Speedtest.RunAll m E ctx choices now)))
    /\ (forall conn t err,
          Speedtest.ranErr (Speedtest.Run (Speedtest.runner m) E ctx conn t) = Some err ->
          Speedtest.IsError
            (Speedtest.ranResult (Speedtest.Run (Speedtest.runner m) E ctx conn t)) = true
          /\ Speedtest.Error (fst (Speedtest.runOne (Speedtest.runner m) E ctx conn t))
             = err)
    /\ (forall name conn,
          Speedtest.findConnection name (Speedtest.connections m) = Some conn ->
          Speedtest.RunConnection m E ctx name now
          = (Some (Speedtest.ranResult (Speedtest.Run (Speedtest.runner m) E ctx conn now)),
             Speedtest.ranErr (Speedtest.Run (Speedtest.runner m) E ctx conn now),
             Speedtest.ranClock (Speedtest.Run (Speedtest.runner m) E ctx conn now))).
Proof.
  intros m E ctx choices now. split; [ | split ].
  - unfold Speedtest.RunAll. destruct (Speedtest.parallel m).
    + left. reflexivity.
    + unfold Speedtest.runSequential.
      destruct (seqLoop_err E ctx (Speedtest.runner m) (Speedtest.connections m) [] now)
        as [H | (t & H & _)].
      * left. exact H.
      * right. split; [ reflexivity | exists t; exact H ].
  - intros conn t err H. split.
    + pose proof (Run_shape (Speedtest.runner m) E ctx conn t) as (_ & _ & Hs).
      cbv zeta in Hs. rewrite H in Hs. apply Hs.
    + rewrite (runOne_error E ctx _ conn t err H). reflexivity.
  - intros name conn H. unfold Speedtest.RunConnection. rewrite H. reflexivity.
Qed.

(** The three sample paths, the third one unassignable: the sweep returns
    no error, and the third Result carries the fetch error. *)
Lemma path_errors_stop_at_RunAll_sample :
  Speedtest.sweepErr
    (Speedtest.RunAll Sample.threeWANs Sample.world Speedtest.Background [] 0) = None
  /\ Speedtest.Error
       (fst (Speedtest.runOne Sample.auto Sample.world Speedtest.Background Sample.wanC 0))
     = "dial tcp: bind: cannot assign requested address".
Proof.
  split; [ reflexivity | ].
  apply (proj1 (proj2 (path_errors_stop_at_RunAll Sample.threeWANs Sample.world
                         Speedtest.Background [] 0)) Sample.wanC 0).
  reflexivity.
Defined.

(** ** Timestamp and duration *)

(** C5, as stated, fails.  The failed fetch through 10.255.255.255 takes a
    millisecond, yet the Result's duration is zero. *)
Lemma failed_run_has_no_duration :
  ~ (forall (r : Speedtest.Runner) (E : Speedtest.Env) (ctx : Speedtest.Context)
            (conn : Speedtest.WANConnection) (now : Z),
       let ran := Speedtest.Run r E ctx conn now in
       Speedtest.Timestamp (Speedtest.ranResult ran) = Some now
       /\ (Speedtest.Duration (Speedtest.ranResult ran)
           == Speedtest.seconds (Speedtest.ranClock ran - now))%Q).
Proof.
  intros H.
  destruct (H Sample.auto Sample.world Speedtest.Background Sample.wanC 0) as [_ Hd].
  vm_compute in Hd. discriminate Hd.
Qed.

(** C5, amended.  Every Result that Run returns carries the start
    timestamp.  Its duration is the time elapsed since the start when Run
    returns no error, and zero when Run returns an error. *)
Theorem timestamp_always_duration_on_success :
  forall (r : Speedtest.Runner) (E : Speedtest.Env) (ctx : Speedtest.Context)
         (conn : Speedtest.WANConnection) (now : Z),
    Speedtest.Timestamp (Speedtest.ranResult (Speedtest.Run r E ctx conn now)) = Some now
    /\ Speedtest.Duration (Speedtest.ranResult (Speedtest.Run r E ctx conn now))
       = match Speedtest.ranErr (Speedtest.Run r E ctx conn now) with
         | None => Speedtest.seconds
                     (Speedtest.ranClock (Speedtest.Run r E ctx conn now) - now)
         | Some _ => 0%Q
         end.
Proof.
  intros r E ctx conn now.
  pose proof (Run_shape r E ctx conn now) as (_ & Ht & H). cbv zeta in Ht, H.
  split; [ exact Ht | ].
  destruct (Speedtest.ranErr _); apply H.
Qed.

(** ** runSequential *)

Section SequentialLoop.

Import Speedtest.

Variable r : Runner.
Variable E : Env.

(** Without cancellation the loop appends one result per connection, in
    order. *)
Lemma seqLoop_complete (ctx : Context) (conns : list WANConnection) :
  neverCancelled ctx ->
  forall (acc : list Result) (now : Z),
    sweepErr (seqLoop r E ctx conns acc now) = None
    /\ map ConnectionName (results (seqLoop r E ctx conns acc now))
       = map ConnectionName acc ++ map Name conns.
Proof.
  intros Hctx.
  induction conns as [ | conn rest IH]; intros acc now; cbn.
  - rewrite app_nil_r. split; reflexivity.
  - rewrite Hctx.
    pose proof (runOne_name r E ctx conn now) as Hn.
    destruct (runOne r E ctx conn now) as [result now']. cbn in Hn.
    destruct (IH (acc ++ [result]) now') as [He Hm].
    split; [ exact He | ].
    rewrite Hm, map_app, <- app_assoc. cbn. rewrite Hn. reflexivity.
Qed.

(** The loop over [pre ++ rest] is the loop over [pre] followed, unless
    it stopped, by the loop over [rest]. *)
Lemma seqLoop_app (ctx : Context) (pre rest : list WANConnection) :
  forall (acc : list Result) (now : Z),
    seqLoop r E ctx (pre ++ rest) acc now
    = match sweepErr (seqLoop r E ctx pre acc now) with
      | None => seqLoop r E ctx rest
                  (results (seqLoop r E ctx pre acc now))
                  (sweepClock (seqLoop r E ctx pre acc now))
      | Some _ =>
          match rest with
          | [] => seqLoop r E ctx pre acc now
          | _ => seqLoop r E ctx pre acc now
          end
      end.
Proof.
  induction pre as [ | conn pre' IH]; intros acc now; cbn.
  - reflexivity.
  - destruct (ctxErr ctx now) as [err | ]; cbn.
    + destruct rest; reflexivity.
    + destruct (runOne r E ctx conn now) as [result now']. apply IH.
Qed.

(** A loop that ended without error saw no cancellation, so it collected
    what the loop under the background context collects. *)
Lemma seqLoop_uncancelled (ctx : Context) (conns : list WANConnection) :
  forall (acc : list Result) (now : Z),
    sweepErr (seqLoop r E ctx conns acc now) = None ->
    seqLoop r E ctx conns acc now = seqLoop r E Background conns acc now.
Proof.
  induction conns as [ | conn rest IH]; intros acc now; cbn.
  - reflexivity.
  - destruct (ctxErr ctx now) as [err | ]; cbn; [ discriminate | ].
    change (runOne r E ctx conn now) with (runOne r E Background conn now).
    destruct (runOne r E Background conn now) as [result now']. apply IH.
Qed.

Lemma Background_neverCancelled : neverCancelled Background.
Proof. intros t. reflexivity. Qed.

End SequentialLoop.

(** C6.  In serial mode, under a context that is never cancelled, RunAll
    returns no error and exactly one Result per configured connection, in
    the order of the connections: the list of the Results' connection
    names is the list of the connections' names (so as many Results as
    connections, and no name twice when the connections' names are
    distinct). *)
Theorem serial_sweep_one_result_per_path :
  forall (m : Speedtest.MultiWANRunner) (E : Speedtest.Env)
         (ctx : Speedtest.Context) (choices : list nat) (now : Z),
    Speedtest.parallel m = false ->
    Speedtest.neverCancelled ctx ->
    Speedtest.sweepErr (Speedtest.RunAll m E ctx choices now) = None
    /\ List.length (Speedtest.results (Speedtest.RunAll m E ctx choices now))
       = List.length (Speedtest.connections m)
    /\ map Speedtest.ConnectionName (Speedtest.results (Speedtest.RunAll m E ctx choices now))
       = map Speedtest.Name (Speedtest.connections m)
    /\ (NoDup (map Speedtest.Name (Speedtest.connections m)) ->
        NoDup (map Speedtest.ConnectionName
                 (Speedtest.results (Speedtest.RunAll m E ctx choices now)))).
Proof.
  intros m E ctx choices now Hser Hctx.
  unfold Speedtest.RunAll. rewrite Hser. unfold Speedtest.runSequential.
  destruct (seqLoop_complete (Speedtest.runner m) E ctx (Speedtest.connections m)
              Hctx [] now) as [He Hm].
  cbn in Hm.
  split; [ exact He | ].
  split; [ | split ].
  - rewrite <- (length_map Speedtest.ConnectionName), Hm. apply length_map.
  - exact Hm.
  - intros Hnd. rewrite Hm. exact Hnd.
Qed.

(** The three sample paths under the background context: three Results,
    named A, B, C in that order. *)
Lemma serial_sweep_one_result_per_path_sample :
  map Speedtest.ConnectionName
    (Speedtest.results
       (Speedtest.RunAll Sample.threeWANs Sample.world Speedtest.Background [] 0))
  = ["A"; "B"; "C"].
Proof.
  exact (proj1 (proj2 (proj2
    (serial_sweep_one_result_per_path Sample.threeWANs Sample.world
       Speedtest.Background [] 0 eq_refl
       Background_neverCancelled)))).
Defined.

(** Once the context is done at the check before a connection, the loop
    returns what it had: the results and the clock of the loop over the
    earlier connections. *)
Lemma seqLoop_stops (r : Speedtest.Runner) (E : Speedtest.Env)
    (ctx : Speedtest.Context) (pre : list Speedtest.WANConnection)
    (conn : Speedtest.WANConnection) (rest : list Speedtest.WANConnection)
    (now : Z) (err : error) :
  Speedtest.sweepErr (Speedtest.seqLoop r E ctx pre [] now) = None ->
  Speedtest.ctxErr ctx (Speedtest.sweepClock (Speedtest.seqLoop r E ctx pre [] now))
  = Some err ->
  Speedtest.seqLoop r E ctx (pre ++ conn :: rest) [] now
  = {| Speedtest.results := Speedtest.results (Speedtest.seqLoop r E ctx pre [] now);
       Speedtest.sweepErr := Some err;
       Speedtest.sweepClock :=
         Speedtest.sweepClock (Speedtest.seqLoop r E ctx pre [] now) |}.
Proof.
  intros Hpre Hdone. rewrite seqLoop_app, Hpre. cbn. rewrite Hdone. reflexivity.
Qed.

(** C8.  In serial mode, when the connections before some connection were
    all started without the context being done, and the context is done at
    the check that precedes that connection, RunAll starts neither it nor
    any later one.  It returns the context's error, and the Results of the
    earlier connections only, each exactly the Result a sweep under the
    background context produces, one per earlier connection.  No probe ran
    after the check: the clock RunAll returns is the clock at which the
    last earlier probe returned, and what RunAll returns depends neither on
    which connections follow nor on what the measurement client would
    answer beyond the earlier probes. *)
Theorem serial_sweep_stops_at_cancellation :
  forall (m : Speedtest.MultiWANRunner) (E : Speedtest.Env)
         (ctx : Speedtest.Context) (choices : list nat) (now : Z)
         (pre : list Speedtest.WANConnection) (conn : Speedtest.WANConnection)
         (rest : list Speedtest.WANConnection) (err : error),
    Speedtest.parallel m = false ->
    Speedtest.connections m = pre ++ conn :: rest ->
    Speedtest.sweepErr (Speedtest.seqLoop (Speedtest.runner m) E ctx pre [] now) = None ->
    Speedtest.ctxErr ctx
      (Speedtest.sweepClock (Speedtest.seqLoop (Speedtest.runner m) E ctx pre [] now))
    = Some err ->
    Speedtest.sweepErr (Speedtest.RunAll m E ctx choices now) = Some err
    /\ Speedtest.results (Speedtest.RunAll m E ctx choices now)
       = Speedtest.results
           (Speedtest.seqLoop (Speedtest.runner m) E Speedtest.Background pre [] now)
    /\ map Speedtest.ConnectionName (Speedtest.results (Speedtest.RunAll m E ctx choices now))
       = map Speedtest.Name pre
    /\ List.length (Speedtest.results (Speedtest.RunAll m E ctx choices now))
       = List.length pre
    /\ Speedtest.sweepClock (Speedtest.RunAll m E ctx choices now)
       = Speedtest.sweepClock
           (Speedtest.seqLoop (Speedtest.runner m) E Speedtest.Background pre [] now)
    /\ (forall (m' : Speedtest.MultiWANRunner) (conn' : Speedtest.WANConnection)
               (rest' : list Speedtest.WANConnection),
          Speedtest.parallel m' = false ->
          Speedtest.runner m' = Speedtest.runner m ->
          Speedtest.connections m' = pre ++ conn' :: rest' ->
          Speedtest.RunAll m' E ctx choices now = Speedtest.RunAll m E ctx choices now)
    /\ (forall E' : Speedtest.Env,
          Speedtest.seqLoop (Speedtest.runner m) E' ctx pre [] now
          = Speedtest.seqLoop (Speedtest.runner m) E ctx pre [] now ->
          Speedtest.RunAll m E' ctx choices now = Speedtest.RunAll m E ctx choices now).
Proof.
  intros m E ctx choices now pre conn rest err Hser Hconns Hpre Hdone.
  assert (Hall : forall (m' : Speedtest.MultiWANRunner) (E' : Speedtest.Env)
                        (conn' : Speedtest.WANConnection)
                        (rest' : list Speedtest.WANConnection),
             Speedtest.parallel m' = false ->
             Speedtest.runner m' = Speedtest.runner m ->
             Speedtest.connections m' = pre ++ conn' :: rest' ->
             Speedtest.seqLoop (Speedtest.runner m) E' ctx pre [] now
             = Speedtest.seqLoop (Speedtest.runner m) E ctx pre [] now ->
             Speedtest.RunAll m' E' ctx choices now
             = {| Speedtest.results :=
                    Speedtest.results
                      (Speedtest.seqLoop (Speedtest.runner m) E ctx pre [] now);
                  Speedtest.sweepErr := Some err;
                  Speedtest.sweepClock :=
                    Speedtest.sweepClock
                      (Speedtest.seqLoop (Speedtest.runner m) E ctx pre [] now) |}).
  { intros m' E' conn' rest' Hser' Hr' Hconns' HE'.
    unfold Speedtest.RunAll. rewrite Hser'.
    unfold Speedtest.runSequential. rewrite Hconns', Hr'.
    rewrite (seqLoop_stops (Speedtest.runner m) E' ctx pre conn' rest' now err).
    - rewrite HE'. reflexivity.
    - rewrite HE'. exact Hpre.
    - rewrite HE'. exact Hdone. }
  pose proof (Hall m E conn rest Hser eq_refl Hconns eq_refl) as Hrun.
  pose proof (seqLoop_uncancelled (Speedtest.runner m) E ctx pre [] now Hpre) as Hbg.
  destruct (seqLoop_complete (Speedtest.runner m) E Speedtest.Background pre
              (Background_neverCancelled) [] now) as [_ Hm].
  cbn in Hm.
  split; [ rewrite Hrun; reflexivity | ].
  split; [ rewrite Hrun, <- Hbg; reflexivity | ].
  split; [ rewrite Hrun; cbn [Speedtest.results]; rewrite Hbg; exact Hm | ].
  split.
  { rewrite Hrun. cbn [Speedtest.results]. rewrite Hbg.
    rewrite <- (length_map Speedtest.ConnectionName), Hm. apply length_map. }
  split; [ rewrite Hrun, <- Hbg; reflexivity | ].
  split.
  - intros m' conn' rest' Hser' Hr' Hconns'.
    rewrite (Hall m' E conn' rest' Hser' Hr' Hconns' eq_refl), Hrun. reflexivity.
  - intros E' HE'.
    rewrite (Hall m E' conn rest Hser eq_refl Hconns HE'), Hrun. reflexivity.
Qed.

(** Three serial probes, cancellation five seconds after the first one
    started (it takes twenty-four): one Result, for A, with its
    measurements, the error of the cancelled context, and a clock of
    twenty-four seconds, the second probe not having run. *)
Lemma serial_sweep_stops_at_cancellation_sample :
  Speedtest.sweepErr
    (Speedtest.RunAll Sample.threeWANs Sample.world
       (Speedtest.WithCancel (5 * Sample.second)) [] 0)
  = Some "context canceled"
  /\ Speedtest.results
       (Speedtest.RunAll Sample.threeWANs Sample.world
          (Speedtest.WithCancel (5 * Sample.second)) [] 0)
     = [fst (Speedtest.runOne Sample.auto Sample.world Speedtest.Background Sample.wanA 0)]
  /\ Speedtest.sweepClock
       (Speedtest.RunAll Sample.threeWANs Sample.world
          (Speedtest.WithCancel (5 * Sample.second)) [] 0)
     = 24 * Sample.second.
Proof.
  pose proof (serial_sweep_stops_at_cancellation Sample.threeWANs Sample.world
                (Speedtest.WithCancel (5 * Sample.second)) [] 0
                [Sample.wanA] Sample.wanB [Sample.wanC] "context canceled"
                eq_refl eq_refl eq_refl eq_refl) as (He & Hr & _ & _ & Hc & _).
  split; [ exact He | ].
  split; [ rewrite Hr; reflexivity | rewrite Hc; reflexivity ].
Defined.

(** ** runParallel *)

Section ParallelOrder.

Import Speedtest.

Context {A : Type}.

Lemma pick_perm (k : nat) :
  forall (x : A) (l : list A) (y : A) (rest : list A),
    pick k x l = (y, rest) -> Permutation (x :: l) (y :: rest).
Proof.
  induction k as [ | k IH]; intros x l y rest; cbn.
  - intros H. injection H as <- <-. apply Permutation_refl.
  - destruct l as [ | z l'].
    + intros H. injection H as <- <-. apply Permutation_refl.
    + destruct (pick k z l') as [w l''] eqn:Hp.
      intros H. injection H as <- <-.
      apply IH in Hp.
      apply perm_trans with (x :: w :: l'').
      * apply perm_skip. exact Hp.
      * apply perm_swap.
Qed.

(** Whatever the scheduler chooses, the channel delivers each pending
    value once. *)
Lemma drain_perm (fuel : nat) :
  forall (choices : list nat) (pending : list A),
    List.length pending = fuel ->
    Permutation (drain choices pending fuel) pending.
Proof.
  induction fuel as [ | fuel IH]; intros choices pending Hlen.
  - destruct pending; [ apply perm_nil | discriminate ].
  - destruct pending as [ | x l]; [ discriminate | ].
    cbn [drain].
    destruct (pick _ x l) as [y rest] eqn:Hp.
    apply pick_perm in Hp.
    assert (Hrest : List.length rest = fuel).
    { apply Permutation_length in Hp. cbn in Hp, Hlen. lia. }
    apply perm_trans with (y :: rest).
    + apply perm_skip. apply IH. exact Hrest.
    + apply Permutation_sym. exact Hp.
Qed.

End ParallelOrder.

Lemma runParallel_names (m : Speedtest.MultiWANRunner) (E : Speedtest.Env)
    (ctx : Speedtest.Context) (choices : list nat) (now : Z) :
  Permutation
    (map Speedtest.ConnectionName
       (Speedtest.results (Speedtest.runParallel m E ctx choices now)))
    (map Speedtest.Name (Speedtest.connections m)).
Proof.
  unfold Speedtest.runParallel. cbn [Speedtest.results].
  set (outs := map _ (Speedtest.connections m)).
  rewrite map_map.
  apply perm_trans with (map (fun o => Speedtest.ConnectionName (fst o)) outs).
  - apply Permutation_map. apply drain_perm. reflexivity.
  - subst outs. rewrite map_map.
    erewrite map_ext; [ apply Permutation_refl | ].
    intros conn. apply runOne_name.
Qed.

(** C9.  In parallel mode RunAll returns a nil error and one Result per
    configured connection (the Results' connection names are a permutation
    of the connections' names), whatever the context: the sweep under any
    context, one already cancelled included, is the sweep under the
    background context. *)
Theorem parallel_sweep_ignores_cancellation :
  forall (m : Speedtest.MultiWANRunner) (E : Speedtest.Env)
         (ctx : Speedtest.Context) (choices : list nat) (now : Z),
    Speedtest.parallel m = true ->
    Speedtest.sweepErr (Speedtest.RunAll m E ctx choices now) = None
    /\ List.length (Speedtest.results (Speedtest.RunAll m E ctx choices now))
       = List.length (Speedtest.connections m)
    /\ Permutation
         (map Speedtest.ConnectionName
            (Speedtest.results (Speedtest.RunAll m E ctx choices now)))
         (map Speedtest.Name (Speedtest.connections m))
    /\ Speedtest.RunAll m E ctx choices now
       = Speedtest.RunAll m E Speedtest.Background choices now.
Proof.
  intros m E ctx choices now Hpar.
  unfold Speedtest.RunAll. rewrite Hpar.
  pose proof (runParallel_names m E ctx choices now) as Hperm.
  split; [ reflexivity | ].
  split; [ | split ].
  - apply Permutation_length in Hperm. rewrite !length_map in Hperm. exact Hperm.
  - exact Hperm.
  - reflexivity.
Qed.

(** The three sample paths in parallel, under a context cancelled before
    the call, the goroutines finishing in the order C, A, B: nil error and
    three Results. *)
Lemma parallel_sweep_ignores_cancellation_sample :
  Speedtest.ctxErr (Speedtest.WithCancel 0) 7 = Some "context canceled"
  /\ Speedtest.sweepErr
       (Speedtest.RunAll Sample.threeWANsParallel Sample.world
          (Speedtest.WithCancel 0) [2%nat; 0%nat; 0%nat] 7) = None
  /\ map Speedtest.ConnectionName
       (Speedtest.results
          (Speedtest.RunAll Sample.threeWANsParallel Sample.world
             (Speedtest.WithCancel 0) [2%nat; 0%nat; 0%nat] 7))
     = ["C"; "A"; "B"].
Proof.
  split; [ reflexivity | ].
  split.
  - exact (proj1 (parallel_sweep_ignores_cancellation Sample.threeWANsParallel
                    Sample.world (Speedtest.WithCancel 0)
                    [2%nat; 0%nat; 0%nat] 7 eq_refl)).
  - reflexivity.
Defined.

(** ** The scheduler *)

Section SchedulerInvariant.

Import Scheduler.

Variable p : string -> option error.
Variable cfg : Config.SchedulerConfig.

Local Abbreviation wellFormed := (wellFormedFor cfg).

Lemma entryHasJob_In (c : Cron) (id : Z) :
  entryHasJob c id = true <-> In id (entries c).
Proof.
  unfold entryHasJob. rewrite existsb_exists. split.
  - intros (x & Hin & Hx). apply Z.eqb_eq in Hx. subst x. exact Hin.
  - intros Hin. exists id. split; [ exact Hin | apply Z.eqb_refl ].
Qed.

Lemma fresh_wellFormed : wellFormed (fresh p cfg).
Proof.
  repeat split. intros H. cbn in H. contradiction.
Qed.

Lemma launch_wellFormed (s : Scheduler) (w : Sweep) :
  wellFormed s -> wellFormed (launch s w).
Proof. intros H. exact H. Qed.

Lemma Start_wellFormed (s : Scheduler) : wellFormed s -> wellFormed (snd (Start s)).
Proof.
  intros (Hc & Hcfg & Hj). unfold Start.
  destruct (running s); [ repeat split; assumption | ].
  destruct (negb _); [ repeat split; assumption | ].
  unfold AddFunc.
  destruct (parse (cron s) _) as [err | ]; cbn.
  - repeat split; assumption.
  - repeat split; try assumption.
    intros _. apply entryHasJob_In. cbn. apply in_or_app. right. left. reflexivity.
Qed.

Lemma exec_wellFormed (a : Action) (s s' : Scheduler) :
  wellFormed s -> exec a s = Some s' -> wellFormed s'.
Proof.
  intros Hwf. pose proof Hwf as (Hc & Hcfg & Hj).
  destruct a as [ | | | id | k]; cbn.
  - intros H. injection H as <-. apply Start_wellFormed. exact Hwf.
  - unfold Stop. destruct (negb (running s)).
    + intros H. injection H as <-. exact Hwf.
    + destruct (existsb isTimer (inFlight s)); [ discriminate | ].
      intros H. injection H as <-. repeat split; assumption.
  - intros H. injection H as <-. unfold TriggerNow.
    destruct (jobID s =? 0); [ exact Hwf | ].
    destruct (entryHasJob _ _); [ | exact Hwf ].
    apply launch_wellFormed. exact Hwf.
  - intros H. injection H as <-. unfold fire.
    destruct (negb (cronRunning _)); [ exact Hwf | ].
    destruct (negb (entryHasJob _ _)); [ exact Hwf | ].
    destruct (_ && _); [ exact Hwf | ].
    apply launch_wellFormed. exact Hwf.
  - unfold finish. destruct (removeNth k (inFlight s)); [ | discriminate ].
    intros H. injection H as <-. repeat split; assumption.
Qed.

Lemma execAll_wellFormed (acts : list Action) :
  forall s s', wellFormed s -> execAll acts s = Some s' -> wellFormed s'.
Proof.
  induction acts as [ | a rest IH]; intros s s' Hwf; cbn.
  - intros H. injection H as <-. exact Hwf.
  - destruct (exec a s) as [s1 | ] eqn:Ha; [ | discriminate ].
    apply IH. eapply exec_wellFormed; eassumption.
Qed.

Lemma reachable_wellFormed (s : Scheduler) : reachable p cfg s -> wellFormed s.
Proof.
  intros (s0 & acts & Hnew & Hrun).
  cbn in Hnew. injection Hnew as <-.
  eapply execAll_wellFormed; [ apply fresh_wellFormed | exact Hrun ].
Qed.

(** With the scheduler disabled nothing ever changes: every action that
    can be executed leaves the fresh scheduler as it is. *)
Lemma disabled_exec (a : Action) (s' : Scheduler) :
  Config.SchedEnabled cfg = false ->
  exec a (fresh p cfg) = Some s' -> s' = fresh p cfg.
Proof.
  intros Hoff.
  destruct a as [ | | | id | k]; cbn.
  - unfold Start. cbn. rewrite Hoff. cbn. intros H. injection H as <-. reflexivity.
  - intros H. injection H as <-. reflexivity.
  - intros H. injection H as <-. reflexivity.
  - intros H. injection H as <-. reflexivity.
  - unfold finish. cbn. destruct k; discriminate.
Qed.

Lemma disabled_execAll (acts : list Action) (s' : Scheduler) :
  Config.SchedEnabled cfg = false ->
  execAll acts (fresh p cfg) = Some s' -> s' = fresh p cfg.
Proof.
  intros Hoff. induction acts as [ | a rest IH]; cbn.
  - intros H. injection H as <-. reflexivity.
  - destruct (exec a (fresh p cfg)) as [s1 | ] eqn:Ha; [ | discriminate ].
    apply (disabled_exec a s1 Hoff) in Ha. subst s1. exact IH.
Qed.

Lemma disabled_startTimes (n : nat) :
  Config.SchedEnabled cfg = false ->
  startTimes n (fresh p cfg) = (repeat None n, fresh p cfg).
Proof.
  intros Hoff.
  assert (Hs : Start (fresh p cfg) = (None, fresh p cfg))
    by (unfold Start; cbn; rewrite Hoff; reflexivity).
  induction n as [ | n IH]; cbn [startTimes repeat].
  - reflexivity.
  - rewrite Hs, IH. reflexivity.
Qed.

End SchedulerInvariant.

(** C1, as stated, fails.  After Start, two calls of TriggerNow with no
    sweep returning in between leave two sweeps in flight; and neither
    TriggerNow nor a timer fire is a no-op while a sweep is in flight. *)
Lemma two_triggers_two_sweeps :
  ~ (forall (p : string -> option error) (cfg : Config.SchedulerConfig)
            (s : Scheduler.Scheduler),
       Scheduler.reachable p cfg s ->
       (List.length (Scheduler.inFlight s) <= 1)%nat)
  /\ ~ (forall (p : string -> option error) (cfg : Config.SchedulerConfig)
               (s : Scheduler.Scheduler) (id : Z),
          Scheduler.reachable p cfg s ->
          Scheduler.inFlight s <> [] ->
          Scheduler.TriggerNow s = s /\ Scheduler.fire s id = s).
Proof.
  split; intros H.
  - specialize (H Sample.cronParser Sample.everyHalfHour).
    assert (Hreach : Scheduler.reachable Sample.cronParser Sample.everyHalfHour
              (Scheduler.TriggerNow (Scheduler.TriggerNow
                 (snd (Scheduler.Start
                         (Scheduler.fresh Sample.cronParser Sample.everyHalfHour)))))).
    { exists (Scheduler.fresh Sample.cronParser Sample.everyHalfHour),
        [Scheduler.DoStart; Scheduler.DoTriggerNow; Scheduler.DoTriggerNow].
      split; reflexivity. }
    apply H in Hreach. cbn in Hreach. lia.
  - specialize (H Sample.cronParser Sample.everyHalfHour
                  (Scheduler.TriggerNow
                     (snd (Scheduler.Start
                             (Scheduler.fresh Sample.cronParser Sample.everyHalfHour))))
                  1).
    destruct H as [Ht _].
    + exists (Scheduler.fresh Sample.cronParser Sample.everyHalfHour),
        [Scheduler.DoStart; Scheduler.DoTriggerNow].
      split; reflexivity.
    + discriminate.
    + apply (f_equal Scheduler.launched) in Ht. vm_compute in Ht. discriminate Ht.
Qed.

(** C1, amended.  In every state a scheduler can reach: TriggerNow is a
    no-op when no job was ever registered; once a job is registered every
    TriggerNow starts one more sweep whatever is already in flight, so two
    calls in a row start two sweeps; and every timer fire of a registered
    entry of the running cron starts one more sweep, none being skipped. *)
Theorem every_trigger_starts_a_sweep :
  forall (p : string -> option error) (cfg : Config.SchedulerConfig)
         (s : Scheduler.Scheduler),
    Scheduler.reachable p cfg s ->
    (Scheduler.jobID s = 0 -> Scheduler.TriggerNow s = s)
    /\ (Scheduler.jobID s <> 0 ->
        Scheduler.TriggerNow s = Scheduler.launch s Scheduler.Manual
        /\ Scheduler.inFlight (Scheduler.TriggerNow (Scheduler.TriggerNow s))
           = Scheduler.inFlight s ++ [Scheduler.Manual; Scheduler.Manual]
        /\ Scheduler.launched (Scheduler.TriggerNow (Scheduler.TriggerNow s))
           = S (S (Scheduler.launched s)))
    /\ (forall id,
          Scheduler.cronRunning (Scheduler.cron s) = true ->
          In id (Scheduler.entries (Scheduler.cron s)) ->
          Scheduler.fire s id = Scheduler.launch s (Scheduler.Timer id)).
Proof.
  intros p cfg s Hreach.
  destruct (reachable_wellFormed p cfg s Hreach) as (Hc & _ & Hj).
  split; [ | split ].
  - intros H0. unfold Scheduler.TriggerNow. rewrite H0. reflexivity.
  - intros Hne.
    assert (Hone : forall s1, Scheduler.jobID s1 = Scheduler.jobID s ->
                     Scheduler.cron s1 = Scheduler.cron s ->
                     Scheduler.TriggerNow s1 = Scheduler.launch s1 Scheduler.Manual).
    { intros s1 Hid Hcr. unfold Scheduler.TriggerNow. rewrite Hid, Hcr.
      destruct (Z.eqb_spec (Scheduler.jobID s) 0) as [Heq | _]; [ contradiction | ].
      rewrite (Hj Hne). reflexivity. }
    rewrite (Hone s eq_refl eq_refl).
    rewrite (Hone (Scheduler.launch s Scheduler.Manual) eq_refl eq_refl).
    cbn. rewrite <- app_assoc. repeat split.
  - intros id Hrun Hin. unfold Scheduler.fire.
    rewrite Hrun, Hc. cbn.
    apply entryHasJob_In in Hin. rewrite Hin. reflexivity.
Qed.

(** After Start and one TriggerNow, whose sweep has not returned: a second
    TriggerNow and then a timer fire bring the sweeps in flight to three. *)
Lemma every_trigger_starts_a_sweep_sample :
  Scheduler.inFlight
    (Scheduler.fire
       (Scheduler.TriggerNow
          (Scheduler.TriggerNow
             (snd (Scheduler.Start
                     (Scheduler.fresh Sample.cronParser Sample.everyHalfHour)))))
       1)
  = [Scheduler.Manual; Scheduler.Manual; Scheduler.Timer 1].
Proof.
  assert (Hreach : Scheduler.reachable Sample.cronParser Sample.everyHalfHour
            (Scheduler.TriggerNow (Scheduler.TriggerNow
               (snd (Scheduler.Start
                       (Scheduler.fresh Sample.cronParser Sample.everyHalfHour)))))).
  { exists (Scheduler.fresh Sample.cronParser Sample.everyHalfHour),
      [Scheduler.DoStart; Scheduler.DoTriggerNow; Scheduler.DoTriggerNow].
    split; reflexivity. }
  destruct (every_trigger_starts_a_sweep _ _ _ Hreach) as (_ & _ & Hfire).
  rewrite (Hfire 1 eq_refl (or_introl eq_refl)). reflexivity.
Defined.

(** C10.  When the configuration has the scheduler disabled, every state
    the scheduler reaches is the one NewScheduler built; there, any number
    of Start calls in a row all return nil and change nothing, IsRunning is
    false, no cron entry is registered and no job ID is set. *)
Theorem disabled_scheduler_start_is_noop :
  forall (p : string -> option error) (cfg : Config.SchedulerConfig)
         (s : Scheduler.Scheduler) (n : nat),
    Config.SchedEnabled cfg = false ->
    Scheduler.reachable p cfg s ->
    Scheduler.startTimes n s = (repeat None n, s)
    /\ Scheduler.IsRunning s = false
    /\ Scheduler.entries (Scheduler.cron s) = []
    /\ Scheduler.jobID s = 0.
Proof.
  intros p cfg s n Hoff (s0 & acts & Hnew & Hrun).
  cbn in Hnew. injection Hnew as <-.
  apply (disabled_execAll p cfg acts s Hoff) in Hrun. subst s.
  split; [ apply disabled_startTimes; exact Hoff | ].
  repeat split.
Qed.

(** Three Start calls on the switched-off scheduler, after a first Start
    and a TriggerNow: three nil errors, and the scheduler is not running. *)
Lemma disabled_scheduler_start_is_noop_sample :
  fst (Scheduler.startTimes 3
         (Scheduler.TriggerNow
            (snd (Scheduler.Start
                    (Scheduler.fresh Sample.cronParser Sample.switchedOff)))))
  = [None; None; None]
  /\ Scheduler.IsRunning
       (Scheduler.TriggerNow
          (snd (Scheduler.Start
                  (Scheduler.fresh Sample.cronParser Sample.switchedOff))))
     = false.
Proof.
  assert (Hreach : Scheduler.reachable Sample.cronParser Sample.switchedOff
            (Scheduler.TriggerNow
               (snd (Scheduler.Start
                       (Scheduler.fresh Sample.cronParser Sample.switchedOff))))).
  { exists (Scheduler.fresh Sample.cronParser Sample.switchedOff),
      [Scheduler.DoStart; Scheduler.DoTriggerNow].
    split; reflexivity. }
  destruct (disabled_scheduler_start_is_noop Sample.cronParser Sample.switchedOff
              _ 3%nat eq_refl Hreach) as (Hs & Hr & _).
  split; [ rewrite Hs; reflexivity | exact Hr ].
Defined.

(** * Further properties of the same code *)

(** ** The DSCP dialer *)

(** X1.  NewDSCPDialer accepts exactly a DSCP value in 0..63 with a source
    address that is empty or parses; the dialer it returns holds the three
    arguments unchanged. *)
Theorem NewDSCPDialer_accepts :
  forall (E : Dscp.NetEnv) (dscp : Z) (ip : string) (logger : bool),
    (0 <= dscp <= 63 /\ (ip = empty \/ Dscp.ParseIP E ip = true) ->
     Dscp.NewDSCPDialer E dscp ip logger
     = inr {| Dscp.DSCP := dscp; Dscp.SourceIP := ip; Dscp.Logger := logger |})
    /\ (forall d, Dscp.NewDSCPDialer E dscp ip logger = inr d ->
          0 <= dscp <= 63
          /\ (ip = empty \/ Dscp.ParseIP E ip = true)
          /\ d = {| Dscp.DSCP := dscp; Dscp.SourceIP := ip; Dscp.Logger := logger |}).
Proof.
  intros E dscp ip logger. unfold Dscp.NewDSCPDialer.
  destruct (Z.ltb_spec dscp 0) as [Hlo | Hlo];
    destruct (Z.ltb_spec 63 dscp) as [Hhi | Hhi]; cbn [orb];
    try (split; [ intros [Hr _]; lia | discriminate ]).
  destruct (String.eqb_spec ip empty) as [He | He]; cbn [negb andb].
  - split.
    + intros _. reflexivity.
    + intros d H. injection H as <-. repeat split; try lia; left; exact He.
  - destruct (Dscp.ParseIP E ip) eqn:Hp; cbn [negb].
    + split.
      * intros _. reflexivity.
      * intros d H. injection H as <-. repeat split; try lia; right; reflexivity.
    + split.
      * intros [_ [Hx | Hx]]; [ contradiction | discriminate ].
      * discriminate.
Qed.

(** X2.  Decoding any TOS byte (0..255) gives a DSCP value in 0..63, and
    encoding that value again gives the byte with its two low (ECN) bits
    cleared. *)
Theorem tos_byte_decodes :
  forall tos : Z,
    0 <= tos <= 255 ->
    0 <= Dscp.TOSToDSCP tos <= 63
    /\ Dscp.DSCPToTOS (Dscp.TOSToDSCP tos) = tos - tos mod 4.
Proof.
  intros tos H.
  assert (Hd : Dscp.TOSToDSCP tos = tos / 4).
  { unfold Dscp.TOSToDSCP, GoInt.shr. rewrite Z.shiftr_div_pow2 by lia. reflexivity. }
  rewrite Hd.
  pose proof (Z.div_mod tos 4 ltac:(lia)) as Hdm.
  pose proof (Z.mod_pos_bound tos 4 ltac:(lia)) as Hm.
  assert (Hr : 0 <= tos / 4 <= 63) by lia.
  split; [ exact Hr | ].
  unfold Dscp.DSCPToTOS. rewrite shl2_dscp by exact Hr.
  rewrite Z.shiftl_mul_pow2 by lia. change (2 ^ 2) with 4. lia.
Qed.

(** The byte 187 (DSCP 46 with both ECN bits set) decodes to 46 and
    re-encodes to 184. *)
Lemma tos_byte_decodes_187 :
  Dscp.TOSToDSCP 187 = 46 /\ Dscp.DSCPToTOS (Dscp.TOSToDSCP 187) = 184.
Proof.
  destruct (tos_byte_decodes 187 ltac:(lia)) as [_ H].
  split; [ reflexivity | exact H ].
Defined.

(** X3.  A dialer whose DSCP is not positive installs no control function:
    a connection it makes has no socket option, its log holds at most the
    source-address line, and the dial does not depend on the platform, on
    the raw connection or on what setsockopt would answer. *)
Theorem dscp_zero_sets_nothing :
  forall (E : Dscp.NetEnv) (d : Dscp.DSCPDialer) (network address : string),
    Dscp.DSCP d <= 0 ->
    (forall c, Dscp.dialResult (Dscp.DialContext E d network address) = inr c ->
       Dscp.connOpts c = [])
    /\ (forall x, In x (Dscp.dialLog (Dscp.DialContext E d network address)) ->
          x = Dscp.DebugBindingSourceIP (Dscp.SourceIP d))
    /\ (forall E', Dscp.ParseIP E' = Dscp.ParseIP E ->
          Dscp.openSocket E' = Dscp.openSocket E ->
          Dscp.bindLocal E' = Dscp.bindLocal E ->
          Dscp.connect E' = Dscp.connect E ->
          Dscp.DialContext E' d network address = Dscp.DialContext E d network address).
Proof.
  intros E d network address Hd.
  assert (Hz : (0 <? Dscp.DSCP d) = false) by (apply Z.ltb_ge; exact Hd).
  split; [ | split ].
  - intros c Hc. rewrite (DialContext_opts E d network address c Hc), Hz. reflexivity.
  - unfold Dscp.DialContext. rewrite Hz.
    destruct (String.eqb (Dscp.SourceIP d) empty).
    + rewrite netDial_log.
      destruct (Dscp.openSocket E None network address); cbn; intros x [].
    + destruct (negb (Dscp.ParseIP E (Dscp.SourceIP d))); [ intros x [] | ].
      rewrite netDial_log.
      assert (Hnil : match Dscp.openSocket E
                             (Some (if Dscp.isUDP network
                                    then Dscp.UDPAddr (Dscp.SourceIP d)
                                    else Dscp.TCPAddr (Dscp.SourceIP d)))
                             network address, @None Dscp.DSCPDialer with
                     | None, Some d' =>
                         Dscp.ctlLog
                           (Dscp.controlFunc E d' (Dscp.controlNetwork E network address))
                     | _, _ => []
                     end = [])
        by (destruct (Dscp.openSocket E _ network address); reflexivity).
      rewrite Hnil, app_nil_r.
      destruct (Dscp.Logger d); [ | intros x [] ].
      intros x [<- | []]. reflexivity.
  - intros E' Hp Ho Hb Hc. unfold Dscp.DialContext, Dscp.netDial.
    rewrite Hz, Hp, Ho, Hb, Hc. reflexivity.
Qed.

(** The unmarked dialer on the host whose setsockopt refuses everything:
    the dial succeeds, with no option. *)
Lemma dscp_zero_sets_nothing_restricted :
  Dscp.dialResult
    (Dscp.DialContext Sample.restrictedHost (Dscp.unmarked Sample.ef)
       "tcp" "198.51.100.7:8080")
  = inr {| Dscp.connLocal := None; Dscp.connOpts := [] |}
  /\ Dscp.DialContext Sample.restrictedHost (Dscp.unmarked Sample.ef)
       "tcp" "198.51.100.7:8080"
     = Dscp.DialContext Sample.linuxHost (Dscp.unmarked Sample.ef)
         "tcp" "198.51.100.7:8080".
Proof.
  split; [ reflexivity | ].
  apply (proj2 (proj2 (dscp_zero_sets_nothing Sample.linuxHost
                         (Dscp.unmarked Sample.ef) "tcp" "198.51.100.7:8080"
                         ltac:(cbn; lia)))); reflexivity.
Defined.

(** X4.  A connection the dialer makes is bound to the dialer's source
    address: to no local address when the source address is empty,
    otherwise to that address, as a UDP address for the networks udp, udp4
    and udp6 and as a TCP address for every other network.  A source
    address the host refuses to bind fails the dial. *)
Theorem dial_binds_source :
  forall (E : Dscp.NetEnv) (d : Dscp.DSCPDialer) (network address : string),
    (forall c, Dscp.dialResult (Dscp.DialContext E d network address) = inr c ->
       Dscp.connLocal c
       = if String.eqb (Dscp.SourceIP d) empty then None
         else Some (if Dscp.isUDP network then Dscp.UDPAddr (Dscp.SourceIP d)
                    else Dscp.TCPAddr (Dscp.SourceIP d)))
    /\ (String.eqb (Dscp.SourceIP d) empty = false ->
        Dscp.bindLocal E (if Dscp.isUDP network then Dscp.UDPAddr (Dscp.SourceIP d)
                          else Dscp.TCPAddr (Dscp.SourceIP d)) <> None ->
        Dscp.dialFailed (Dscp.DialContext E d network address) = true).
Proof.
  intros E d network address. unfold Dscp.DialContext. split.
  - intros c.
    destruct (String.eqb (Dscp.SourceIP d) empty).
    + unfold Dscp.netDial.
      destruct (Dscp.openSocket E _ network address); [ discriminate | ].
      destruct (Dscp.ctlErr _); [ discriminate | ].
      destruct (Dscp.connect E network address); [ discriminate | ].
      cbn. intros H. injection H as <-. reflexivity.
    + destruct (negb (Dscp.ParseIP E (Dscp.SourceIP d))); [ discriminate | ].
      unfold Dscp.netDial.
      destruct (Dscp.openSocket E _ network address); [ discriminate | ].
      destruct (Dscp.ctlErr _); [ discriminate | ].
      destruct (Dscp.bindLocal E _); [ discriminate | ].
      destruct (Dscp.connect E network address); [ discriminate | ].
      cbn. intros H. injection H as <-. reflexivity.
  - intros Hs Hb. rewrite Hs. unfold Dscp.dialFailed.
    destruct (negb (Dscp.ParseIP E (Dscp.SourceIP d))); [ reflexivity | ].
    unfold Dscp.netDial.
    destruct (Dscp.openSocket E _ network address); [ reflexivity | ].
    destruct (Dscp.ctlErr _); [ reflexivity | ].
    destruct (Dscp.bindLocal E _); [ reflexivity | contradiction ].
Qed.

(** The unassignable address 10.255.255.255 on the Linux host. *)
Lemma dial_binds_source_unassignable :
  Dscp.dialFailed
    (Dscp.DialContext Sample.linuxHost
       {| Dscp.DSCP := 0; Dscp.SourceIP := "10.255.255.255"; Dscp.Logger := false |}
       "udp" "198.51.100.7:8080") = true.
Proof.
  apply (proj2 (dial_binds_source Sample.linuxHost
                  {| Dscp.DSCP := 0; Dscp.SourceIP := "10.255.255.255";
                     Dscp.Logger := false |} "udp" "198.51.100.7:8080"));
    [ reflexivity | discriminate ].
Defined.

Lemma unix_applied_option (E : Dscp.NetEnv) (d : Dscp.DSCPDialer)
    (network : string) (o : Dscp.SockOpt) :
  Dscp.platform E = Dscp.Unix ->
  In o (Dscp.ctlApplied (Dscp.controlFunc E d network)) ->
  o = if String.eqb network "tcp6" || String.eqb network "udp6"
      then Dscp.IPV6_TCLASS (GoInt.shl (Dscp.DSCP d) 2)
      else Dscp.IP_TOS (GoInt.shl (Dscp.DSCP d) 2).
Proof.
  intros HU. unfold Dscp.controlFunc, Dscp.controlFuncUnix. rewrite HU.
  destruct (Dscp.rawControl E); [ intros [] | ].
  match goal with
  | |- context [Dscp.SetsockoptInt E ?x] => destruct (Dscp.SetsockoptInt E x)
  end; [ intros [] | ].
  cbn. intros [<- | []]. reflexivity.
Qed.

(** X5.  On the non-Windows build, a connection made with a positive DSCP
    carries exactly one option with the value [DSCP << 2]: IPV6_TCLASS
    when the network handed to the control function is tcp6 or udp6, IP_TOS
    for every other network. *)
Theorem unix_marking_option :
  forall (E : Dscp.NetEnv) (d : Dscp.DSCPDialer) (network address : string)
         (c : Dscp.Conn),
    Dscp.platform E = Dscp.Unix ->
    0 < Dscp.DSCP d ->
    Dscp.dialResult (Dscp.DialContext E d network address) = inr c ->
    Dscp.connOpts c
    = [if String.eqb (Dscp.controlNetwork E network address) "tcp6"
          || String.eqb (Dscp.controlNetwork E network address) "udp6"
       then Dscp.IPV6_TCLASS (GoInt.shl (Dscp.DSCP d) 2)
       else Dscp.IP_TOS (GoInt.shl (Dscp.DSCP d) 2)].
Proof.
  intros E d network address c HU Hd Hc.
  destruct (unix_dial_marks E d network address c HU Hd Hc) as (o & Ho & Hin).
  rewrite Ho. f_equal. exact (unix_applied_option E d _ o HU Hin).
Qed.

(** An IPv6 dial with Expedited Forwarding on the Linux host. *)
Lemma unix_marking_option_tcp6 :
  Dscp.dialResult (Dscp.DialContext Sample.linuxHost Sample.ef "tcp6" "[2001:db8::7]:8080")
  = inr {| Dscp.connLocal := None; Dscp.connOpts := [Dscp.IPV6_TCLASS 184] |}
  /\ Dscp.connOpts {| Dscp.connLocal := None; Dscp.connOpts := [Dscp.IPV6_TCLASS 184] |}
     = [Dscp.IPV6_TCLASS (GoInt.shl 46 2)].
Proof.
  split; [ reflexivity | ].
  exact (unix_marking_option Sample.linuxHost Sample.ef "tcp6" "[2001:db8::7]:8080"
           {| Dscp.connLocal := None; Dscp.connOpts := [Dscp.IPV6_TCLASS 184] |}
           eq_refl ltac:(cbn; lia) eq_refl).
Defined.

(** ** Runner.Run and QuickTest *)

Lemma Run_ok_iff (r : Speedtest.Runner) (E : Speedtest.Env)
    (ctx : Speedtest.Context) (conn : Speedtest.WANConnection) (now : Z) :
  Speedtest.ranErr (Speedtest.Run r E ctx conn now) = None <->
  exists d sl server others,
    Dscp.NewDSCPDialer (Speedtest.net E) (Speedtest.connDSCP conn)
      (Speedtest.connSourceIP conn) true = inr d
    /\ Speedtest.FetchServers
         (Speedtest.speedtestNew E now
            {| Speedtest.Source := Speedtest.connSourceIP conn;
               Speedtest.DialerControl :=
                 if 0 <? Speedtest.connDSCP conn then Some d else None |})
       = inr sl
    /\ Speedtest.FindServer sl (Config.ServerIDs (Speedtest.config r))
       = inr (server :: others).
Proof.
  split.
  - unfold Speedtest.Run.
    destruct (Dscp.NewDSCPDialer _ _ _ _) as [err | d]; [ discriminate | ].
    destruct (Speedtest.FetchServers _) as [err | sl] eqn:Hf; [ discriminate | ].
    destruct (Speedtest.FindServer _ _) as [err | [ | server others]] eqn:Hs;
      [ discriminate | discriminate | ].
    intros _. exists d, sl, server, others. repeat split; assumption.
  - intros (d & sl & server & others & Hd & Hf & Hs).
    unfold Speedtest.Run. rewrite Hd, Hf, Hs.
    destruct (Speedtest.PingTest server) as [e | [l j]]; reflexivity.
Qed.

(** X6.  Run returns no error exactly when the dialer can be built, the
    server list is fetched, and the selection returns at least one server.
    The three sub-measurements have no say: the Result then names the first
    server, stores the download and upload rates the server holds after its
    tests, and has latency and jitter zero when the ping test failed. *)
Theorem Run_succeeds_iff :
  forall (r : Speedtest.Runner) (E : Speedtest.Env) (ctx : Speedtest.Context)
         (conn : Speedtest.WANConnection) (now : Z),
    (Speedtest.ranErr (Speedtest.Run r E ctx conn now) = None <->
     exists d sl server others,
       Dscp.NewDSCPDialer (Speedtest.net E) (Speedtest.connDSCP conn)
         (Speedtest.connSourceIP conn) true = inr d
       /\ Speedtest.FetchServers
            (Speedtest.speedtestNew E now
               {| Speedtest.Source := Speedtest.connSourceIP conn;
                  Speedtest.DialerControl :=
                    if 0 <? Speedtest.connDSCP conn then Some d else None |})
          = inr sl
       /\ Speedtest.FindServer sl (Config.ServerIDs (Speedtest.config r))
          = inr (server :: others))
    /\ (forall d sl server others,
          Dscp.NewDSCPDialer (Speedtest.net E) (Speedtest.connDSCP conn)
            (Speedtest.connSourceIP conn) true = inr d ->
          Speedtest.FetchServers
            (Speedtest.speedtestNew E now
               {| Speedtest.Source := Speedtest.connSourceIP conn;
                  Speedtest.DialerControl :=
                    if 0 <? Speedtest.connDSCP conn then Some d else None |})
          = inr sl ->
          Speedtest.FindServer sl (Config.ServerIDs (Speedtest.config r))
          = inr (server :: others) ->
          let res := Speedtest.ranResult (Speedtest.Run r E ctx conn now) in
          Speedtest.ServerName res = Speedtest.srvName server
          /\ Speedtest.ServerHost res = Speedtest.srvHost server
          /\ Speedtest.DownloadMbps res = Speedtest.DLSpeedMbps server
          /\ Speedtest.UploadMbps res = Speedtest.ULSpeedMbps server
          /\ (forall e, Speedtest.PingTest server = inl e ->
                Speedtest.LatencyMs res = 0%Q /\ Speedtest.JitterMs res = 0%Q)).
Proof.
  intros r E ctx conn now. split.
  - apply Run_ok_iff.
  - intros d sl server others Hd Hf Hs. cbv zeta.
    unfold Speedtest.Run. rewrite Hd, Hf, Hs.
    destruct (Speedtest.PingTest server) as [e | [l j]]; cbn;
      repeat split; congruence.
Qed.

(** Through 192.168.2.100 only the deaf server is listed: Run succeeds. *)
Lemma Run_succeeds_iff_deaf :
  Speedtest.ranErr
    (Speedtest.Run Sample.auto Sample.world Speedtest.Background Sample.wanB 0) = None.
Proof.
  apply (proj1 (Run_succeeds_iff Sample.auto Sample.world Speedtest.Background
                  Sample.wanB 0)).
  eexists _, _, Sample.deafServer, []. repeat split.
Defined.

(** X7.  When the dialer cannot be built (DSCP outside 0..63, or a source
    address that does not parse), Run returns that error at once: no time
    has passed, the failure description is the error behind a fixed prefix,
    and the measurement client is not consulted (the outcome is the same
    whatever client the environment provides). *)
Theorem Run_rejects_before_client :
  forall (r : Speedtest.Runner) (E : Speedtest.Env) (ctx : Speedtest.Context)
         (conn : Speedtest.WANConnection) (now : Z) (err : error),
    Dscp.NewDSCPDialer (Speedtest.net E) (Speedtest.connDSCP conn)
      (Speedtest.connSourceIP conn) true = inl err ->
    Speedtest.ranErr (Speedtest.Run r E ctx conn now) = Some err
    /\ Speedtest.ranClock (Speedtest.Run r E ctx conn now) = now
    /\ Speedtest.Error (Speedtest.ranResult (Speedtest.Run r E ctx conn now))
       = ("failed to create DSCP dialer: " ++ err)%string
    /\ (forall E', Speedtest.net E' = Speedtest.net E ->
          Speedtest.Run r E' ctx conn now = Speedtest.Run r E ctx conn now).
Proof.
  intros r E ctx conn now err H.
  unfold Speedtest.Run. rewrite H. repeat split.
  intros E' HE. rewrite HE, H. reflexivity.
Qed.

(** DSCP 64 on the sample world. *)
Lemma Run_rejects_before_client_64 :
  Speedtest.ranErr
    (Speedtest.Run Sample.auto Sample.world Speedtest.Background
       {| Speedtest.Name := "D"; Speedtest.connSourceIP := empty;
          Speedtest.connDSCP := 64; Speedtest.Enabled := true |} 5)
  = Some "DSCP value must be between 0 and 63, got 64".
Proof.
  apply (proj1 (Run_rejects_before_client Sample.auto Sample.world Speedtest.Background
                  {| Speedtest.Name := "D"; Speedtest.connSourceIP := empty;
                     Speedtest.connDSCP := 64; Speedtest.Enabled := true |} 5
                  "DSCP value must be between 0 and 63, got 64" eq_refl)).
Defined.

(** X8.  QuickTest never fails for want of a dialer and installs no control
    function: it succeeds exactly when the client created with an empty
    source and no dialer control lists at least one server, and its Result
    is named default. *)
Theorem QuickTest_succeeds_iff :
  forall (r : Speedtest.Runner) (E : Speedtest.Env) (ctx : Speedtest.Context) (now : Z),
    (Speedtest.ranErr (Speedtest.QuickTest r E ctx now) = None <->
     exists sl server others,
       Speedtest.FetchServers
         (Speedtest.speedtestNew E now
            {| Speedtest.Source := empty; Speedtest.DialerControl := None |})
       = inr sl
       /\ Speedtest.FindServer sl (Config.ServerIDs (Speedtest.config r))
          = inr (server :: others))
    /\ Speedtest.ConnectionName (Speedtest.ranResult (Speedtest.QuickTest r E ctx now))
       = "default".
Proof.
  intros r E ctx now. split.
  - unfold Speedtest.QuickTest.
    rewrite Run_ok_iff. cbn.
    split.
    + intros (d & sl & server & others & _ & Hf & Hs).
      exists sl, server, others. split; assumption.
    + intros (sl & server & others & Hf & Hs).
      eexists _, sl, server, others. repeat split; assumption.
  - unfold Speedtest.QuickTest.
    exact (proj1 (Run_shape r E ctx _ now)).
Qed.

(** ** Counting results *)

Lemma SuccessCount_fold (rs : list Speedtest.Result) :
  forall acc : Z,
    0 <= acc -> acc + Z.of_nat (List.length rs) < 2 ^ 63 ->
    fold_left
      (fun count r => if negb (Speedtest.IsError r) then GoInt.wrap (count + 1) else count)
      rs acc
    = acc + Z.of_nat (List.length (filter (fun r => negb (Speedtest.IsError r)) rs)).
Proof.
  induction rs as [ | r rest IH]; intros acc H0 Hb.
  - cbn. lia.
  - cbn [fold_left filter]. cbn [List.length] in Hb.
    destruct (negb (Speedtest.IsError r)).
    + rewrite wrap_small by lia. rewrite IH by lia. cbn [List.length]. lia.
    + apply IH; lia.
Qed.

Lemma filter_split_length {A : Type} (f : A -> bool) (l : list A) :
  (List.length (filter f l) + List.length (filter (fun x => negb (f x)) l)
   = List.length l)%nat.
Proof.
  induction l as [ | x l IH]; cbn; [ reflexivity | ].
  destruct (f x); cbn; lia.
Qed.

(** X9.  On a collection whose length fits an int, SuccessCount is the
    number of Results with an empty failure description, ErrorCount the
    number with a non-empty one, and the two add up to the length. *)
Theorem result_counts :
  forall rs : list Speedtest.Result,
    Z.of_nat (List.length rs) < 2 ^ 63 ->
    Speedtest.SuccessCount rs
    = Z.of_nat (List.length (filter (fun r => negb (Speedtest.IsError r)) rs))
    /\ Speedtest.ErrorCount rs
       = Z.of_nat (List.length (filter Speedtest.IsError rs))
    /\ Speedtest.SuccessCount rs + Speedtest.ErrorCount rs
       = Z.of_nat (List.length rs).
Proof.
  intros rs Hb.
  assert (Hs : Speedtest.SuccessCount rs
               = Z.of_nat (List.length
                             (filter (fun r => negb (Speedtest.IsError r)) rs))).
  { unfold Speedtest.SuccessCount. rewrite SuccessCount_fold by lia. lia. }
  pose proof (filter_split_length Speedtest.IsError rs) as Hsplit.
  assert (He : Speedtest.ErrorCount rs
               = Z.of_nat (List.length (filter Speedtest.IsError rs))).
  { unfold Speedtest.ErrorCount. rewrite Hs. rewrite wrap_small; lia. }
  split; [ exact Hs | ]. split; [ exact He | ]. rewrite Hs, He. lia.
Qed.

(** The sweep over A, B and the unassignable C: two successes, one error. *)
Lemma result_counts_sample :
  Speedtest.SuccessCount
    (Speedtest.results
       (Speedtest.RunAll Sample.threeWANs Sample.world Speedtest.Background [] 0)) = 2
  /\ Speedtest.ErrorCount
       (Speedtest.results
          (Speedtest.RunAll Sample.threeWANs Sample.world Speedtest.Background [] 0)) = 1.
Proof.
  destruct (result_counts
              (Speedtest.results
                 (Speedtest.RunAll Sample.threeWANs Sample.world Speedtest.Background [] 0))
              ltac:(cbn; lia)) as (Hs & He & _).
  split; [ rewrite Hs | rewrite He ]; reflexivity.
Defined.

(** ** MultiWANRunner *)

(** X10.  NewMultiWANRunner keeps exactly the enabled connections, in the
    order of the configuration, and starts in sequential mode; it fails,
    with its fixed error, exactly when no connection is enabled. *)
Theorem NewMultiWANRunner_keeps_enabled :
  forall (conns : list Config.ConnectionConfig) (cfg : option Config.SpeedtestConfig),
    match Speedtest.NewMultiWANRunner conns cfg with
    | inl err =>
        err = "no enabled connections found"
        /\ (forall c, In c conns -> Config.Enabled c = false)
    | inr m =>
        Speedtest.connections m
        = map Speedtest.WANConnectionFromConfig (filter Config.Enabled conns)
        /\ map Speedtest.Name (Speedtest.connections m)
           = map Config.Name (filter Config.Enabled conns)
        /\ Forall (fun w => Speedtest.Enabled w = true) (Speedtest.connections m)
        /\ (exists c, In c conns /\ Config.Enabled c = true)
        /\ Speedtest.parallel m = false
    end.
Proof.
  intros conns cfg. unfold Speedtest.NewMultiWANRunner.
  destruct (filter Config.Enabled conns) as [ | c kept] eqn:Hf; cbn [map].
  - split; [ reflexivity | ].
    intros c Hin. destruct (Config.Enabled c) eqn:He; [ | reflexivity ].
    assert (Hc : In c (filter Config.Enabled conns))
      by (apply filter_In; split; assumption).
    rewrite Hf in Hc. destruct Hc.
  - cbn [Speedtest.connections Speedtest.parallel].
    assert (Hall : Forall (fun c => Config.Enabled c = true) (c :: kept)).
    { rewrite <- Hf. apply Forall_forall. intros x Hx.
      apply filter_In in Hx. apply Hx. }
    split; [ reflexivity | ].
    split; [ cbn; f_equal; rewrite map_map; reflexivity | ].
    split.
    + change (Forall (fun w => Speedtest.Enabled w = true)
                     (map Speedtest.WANConnectionFromConfig (c :: kept))).
      apply Forall_map. exact Hall.
    + split; [ | reflexivity ].
      exists c. assert (Hc : In c (filter Config.Enabled conns))
        by (rewrite Hf; left; reflexivity).
      apply filter_In in Hc. exact Hc.
Qed.

Lemma findConnection_None (name : string) (conns : list Speedtest.WANConnection) :
  Speedtest.findConnection name conns = None <-> ~ In name (map Speedtest.Name conns).
Proof.
  induction conns as [ | conn rest IH]; cbn.
  - split; [ intros _ [] | reflexivity ].
  - destruct (String.eqb_spec (Speedtest.Name conn) name) as [He | He].
    + split; [ discriminate | ]. intros H. exfalso. apply H. left. exact He.
    + rewrite IH. split.
      * intros H [Hx | Hx]; [ contradiction | exact (H Hx) ].
      * intros H Hx. apply H. right. exact Hx.
Qed.

Lemma findConnection_Some (name : string) (conns : list Speedtest.WANConnection)
    (conn : Speedtest.WANConnection) :
  Speedtest.findConnection name conns = Some conn ->
  In conn conns /\ Speedtest.Name conn = name.
Proof.
  induction conns as [ | c rest IH]; cbn; [ discriminate | ].
  destruct (String.eqb_spec (Speedtest.Name c) name) as [He | He].
  - intros H. injection H as <-. split; [ left; reflexivity | exact He ].
  - intros H. destruct (IH H) as [Hin Hn]. split; [ right; exact Hin | exact Hn ].
Qed.

(** X11.  RunConnection with a name no connection of the runner has runs
    nothing: it returns a nil result and the not-found error (the name
    formatted with %q), and no time passes.  With a name some connection has, it runs a connection of that
    name, and the Result carries the name. *)
Theorem RunConnection_by_name :
  forall (m : Speedtest.MultiWANRunner) (E : Speedtest.Env)
         (ctx : Speedtest.Context) (name : string) (now : Z),
    (~ In name (map Speedtest.Name (Speedtest.connections m)) ->
     Speedtest.RunConnection m E ctx name now
     = (None,
        Some ("connection " ++ Speedtest.Quote E name ++ " not found")%string,
        now))
    /\ (In name (map Speedtest.Name (Speedtest.connections m)) ->
        exists conn,
          In conn (Speedtest.connections m)
          /\ Speedtest.Name conn = name
          /\ Speedtest.RunConnection m E ctx name now
             = (Some (Speedtest.ranResult
                        (Speedtest.Run (Speedtest.runner m) E ctx conn now)),
                Speedtest.ranErr (Speedtest.Run (Speedtest.runner m) E ctx conn now),
                Speedtest.ranClock (Speedtest.Run (Speedtest.runner m) E ctx conn now))
          /\ Speedtest.ConnectionName
               (Speedtest.ranResult (Speedtest.Run (Speedtest.runner m) E ctx conn now))
             = name).
Proof.
  intros m E ctx name now. unfold Speedtest.RunConnection. split.
  - intros H. apply findConnection_None in H. rewrite H. reflexivity.
  - intros H.
    destruct (Speedtest.findConnection name (Speedtest.connections m)) as [conn | ] eqn:Hf.
    + destruct (findConnection_Some name _ conn Hf) as [Hin Hn].
      exists conn. repeat split; try assumption.
      rewrite <- Hn. exact (proj1 (Run_shape (Speedtest.runner m) E ctx conn now)).
    + apply findConnection_None in Hf. contradiction.
Qed.

(** The name D on the three sample paths. *)
Lemma RunConnection_by_name_missing :
  Speedtest.RunConnection Sample.threeWANs Sample.world Speedtest.Background "D" 9
  = (None,
     Some ("connection " ++ Speedtest.Quote Sample.world "D" ++ " not found")%string,
     9).
Proof.
  apply (proj1 (RunConnection_by_name Sample.threeWANs Sample.world
                  Speedtest.Background "D" 9)).
  cbn. intros [H | [H | [H | []]]]; discriminate H.
Defined.

Section SequentialPrefix.

Import Speedtest.

Variable r : Runner.
Variable E : Env.
Variable ctx : Context.

(** The loop only appends to the results it was given: one Result per
    connection when it ends without error, fewer when it stops. *)
Lemma seqLoop_extends (conns : list WANConnection) :
  forall (acc : list Result) (now : Z),
    exists tail,
      results (seqLoop r E ctx conns acc now) = acc ++ tail
      /\ (sweepErr (seqLoop r E ctx conns acc now) = None ->
          List.length tail = List.length conns)
      /\ (sweepErr (seqLoop r E ctx conns acc now) <> None ->
          (List.length tail < List.length conns)%nat).
Proof.
  induction conns as [ | conn rest IH]; intros acc now; cbn [seqLoop].
  - exists []. cbn. rewrite app_nil_r. repeat split. intros H. contradiction.
  - destruct (ctxErr ctx now) as [err | ]; cbn.
    + exists []. rewrite app_nil_r. repeat split; [ discriminate | cbn; lia ].
    + destruct (runOne r E ctx conn now) as [result now'].
      destruct (IH (acc ++ [result]) now') as (tail & Hr & Hn & He).
      exists (result :: tail). rewrite Hr, <- app_assoc. cbn.
      repeat split.
      * intros H. rewrite (Hn H). reflexivity.
      * intros H. specialize (He H). lia.
Qed.

Lemma seqLoop_prefix (conns : list WANConnection) :
  forall (acc : list Result) (now : Z),
    exists suffix,
      results (seqLoop r E Background conns acc now)
      = results (seqLoop r E ctx conns acc now) ++ suffix
      /\ (sweepErr (seqLoop r E ctx conns acc now) = None <-> suffix = []).
Proof.
  induction conns as [ | conn rest IH]; intros acc now; cbn [seqLoop ctxErr].
  - exists []. cbn. rewrite app_nil_r. repeat split.
  - destruct (ctxErr ctx now) as [err | ]; cbn [results sweepErr].
    + change (runOne r E Background conn now) with (runOne r E ctx conn now).
      destruct (runOne r E ctx conn now) as [result now'].
      assert (Hx : exists tail,
                 results (seqLoop r E Background rest (acc ++ [result]) now')
                 = (acc ++ [result]) ++ tail).
      { clear. generalize (acc ++ [result]) as a. generalize now' as t.
        induction rest as [ | c l IHl]; intros t a; cbn.
        - exists []. rewrite app_nil_r. reflexivity.
        - destruct (runOne r E Background c t) as [x t'].
          destruct (IHl t' (a ++ [x])) as (tl & Htl).
          exists (x :: tl). rewrite Htl, <- app_assoc. reflexivity. }
      destruct Hx as (tail & Htail).
      exists (result :: tail). rewrite Htail, <- app_assoc. cbn.
      split; [ reflexivity | ]. split; discriminate.
    + change (runOne r E Background conn now) with (runOne r E ctx conn now).
      destruct (runOne r E ctx conn now) as [result now']. apply IH.
Qed.

End SequentialPrefix.

(** X12.  Under any context, the Results a sequential sweep returns are an
    initial segment of the Results of the same sweep under the background
    context, in the same order; the segment is the whole exactly when the
    sweep returns no error, and is strictly shorter than the list of
    connections when it returns one. *)
Theorem serial_sweep_is_a_prefix :
  forall (m : Speedtest.MultiWANRunner) (E : Speedtest.Env)
         (ctx : Speedtest.Context) (now : Z),
    (exists suffix,
       Speedtest.results (Speedtest.runSequential m E Speedtest.Background now)
       = Speedtest.results (Speedtest.runSequential m E ctx now) ++ suffix
       /\ (Speedtest.sweepErr (Speedtest.runSequential m E ctx now) = None
           <-> suffix = []))
    /\ (Speedtest.sweepErr (Speedtest.runSequential m E ctx now) <> None ->
        (List.length (Speedtest.results (Speedtest.runSequential m E ctx now))
         < List.length (Speedtest.connections m))%nat).
Proof.
  intros m E ctx now. unfold Speedtest.runSequential. split.
  - apply seqLoop_prefix.
  - intros H.
    destruct (seqLoop_extends (Speedtest.runner m) E ctx (Speedtest.connections m) [] now)
      as (tail & Hr & _ & He).
    rewrite Hr. cbn. apply He. exact H.
Qed.

(** X13.  For a path whose Run failed, the Result a sweep keeps is not the
    one Run built: it has no timestamp (Run's had the start time), no
    duration and no server, and its failure description is the bare error.
    Converted for storage, its creation time is the zero time. *)
Theorem failed_path_loses_timestamp :
  forall (r : Speedtest.Runner) (E : Speedtest.Env) (ctx : Speedtest.Context)
         (conn : Speedtest.WANConnection) (now : Z) (err : error),
    Speedtest.ranErr (Speedtest.Run r E ctx conn now) = Some err ->
    Speedtest.Timestamp (Speedtest.ranResult (Speedtest.Run r E ctx conn now)) = Some now
    /\ Speedtest.Timestamp (fst (Speedtest.runOne r E ctx conn now)) = None
    /\ Speedtest.Duration (fst (Speedtest.runOne r E ctx conn now)) = 0%Q
    /\ Speedtest.ServerName (fst (Speedtest.runOne r E ctx conn now)) = empty
    /\ Speedtest.Error (fst (Speedtest.runOne r E ctx conn now)) = err
    /\ Storage.CreatedAt
         (Storage.FromSpeedtestResult (fst (Speedtest.runOne r E ctx conn now))) = None.
Proof.
  intros r E ctx conn now err H.
  split; [ exact (proj1 (proj2 (Run_shape r E ctx conn now))) | ].
  rewrite (runOne_error E ctx r conn now err H). repeat split.
Qed.

(** The unassignable path C. *)
Lemma failed_path_loses_timestamp_sample :
  Storage.CreatedAt
    (Storage.FromSpeedtestResult
       (fst (Speedtest.runOne Sample.auto Sample.world Speedtest.Background Sample.wanC 3)))
  = None.
Proof.
  apply (failed_path_loses_timestamp Sample.auto Sample.world Speedtest.Background
           Sample.wanC 3 "dial tcp: bind: cannot assign requested address" eq_refl).
Defined.

(** ** Storage rows *)

(** X14.  Converting a Result to a storage row and back gives the same
    Result with the duration zero: every other field is kept.  Converting a
    row to a Result and back gives the same row with the ID zero: every
    other field is kept.  Both conversions keep the error status. *)
Theorem storage_round_trip :
  forall (r : Speedtest.Result) (t : Storage.TestResult),
    Storage.ToSpeedtestResult (Storage.FromSpeedtestResult r)
    = {| Speedtest.ConnectionName := Speedtest.ConnectionName r;
         Speedtest.SourceIP := Speedtest.SourceIP r;
         Speedtest.DSCP := Speedtest.DSCP r;
         Speedtest.ServerID := Speedtest.ServerID r;
         Speedtest.ServerName := Speedtest.ServerName r;
         Speedtest.ServerCountry := Speedtest.ServerCountry r;
         Speedtest.ServerHost := Speedtest.ServerHost r;
         Speedtest.LatencyMs := Speedtest.LatencyMs r;
         Speedtest.JitterMs := Speedtest.JitterMs r;
         Speedtest.DownloadMbps := Speedtest.DownloadMbps r;
         Speedtest.UploadMbps := Speedtest.UploadMbps r;
         Speedtest.PacketLossPct := Speedtest.PacketLossPct r;
         Speedtest.Timestamp := Speedtest.Timestamp r;
         Speedtest.Duration := 0;
         Speedtest.Error := Speedtest.Error r |}
    /\ (Speedtest.Duration r = 0%Q ->
        Storage.ToSpeedtestResult (Storage.FromSpeedtestResult r) = r)
    /\ Storage.FromSpeedtestResult (Storage.ToSpeedtestResult t)
       = {| Storage.ID := 0;
            Storage.ConnectionName := Storage.ConnectionName t;
            Storage.ServerID := Storage.ServerID t;
            Storage.ServerName := Storage.ServerName t;
            Storage.ServerCountry := Storage.ServerCountry t;
            Storage.ServerHost := Storage.ServerHost t;
            Storage.LatencyMs := Storage.LatencyMs t;
            Storage.JitterMs := Storage.JitterMs t;
            Storage.DownloadMbps := Storage.DownloadMbps t;
            Storage.UploadMbps := Storage.UploadMbps t;
            Storage.PacketLossPct := Storage.PacketLossPct t;
            Storage.SourceIP := Storage.SourceIP t;
            Storage.DSCP := Storage.DSCP t;
            Storage.Error := Storage.Error t;
            Storage.CreatedAt := Storage.CreatedAt t |}
    /\ (Storage.ID t = 0 ->
        Storage.FromSpeedtestResult (Storage.ToSpeedtestResult t) = t)
    /\ Storage.IsError (Storage.FromSpeedtestResult r) = Speedtest.IsError r
    /\ Speedtest.IsError (Storage.ToSpeedtestResult t) = Storage.IsError t.
Proof.
  intros r t. destruct r, t. cbn.
  repeat split; intros H; rewrite H; reflexivity.
Qed.

(** ** Prometheus metrics *)

Section MetricCounts.

Import Metrics.

Lemma UpdateMetrics_counts (rs : list Speedtest.Result) :
  forall (reg : Registry) (c : string),
    testsTotal (UpdateMetrics reg rs) c
    = (testsTotal reg c
       + List.length (filter (fun r => String.eqb c (Speedtest.ConnectionName r)) rs))%nat
    /\ testErrors (UpdateMetrics reg rs) c
       = (testErrors reg c
          + List.length
              (filter (fun r => String.eqb c (Speedtest.ConnectionName r)
                                && Speedtest.IsError r) rs))%nat.
Proof.
  induction rs as [ | r rest IH]; intros reg c.
  - cbn. split; lia.
  - cbn [UpdateMetrics fold_left filter].
    change (fold_left UpdateMetricsForResult rest (UpdateMetricsForResult reg r))
      with (UpdateMetrics (UpdateMetricsForResult reg r) rest).
    destruct (IH (UpdateMetricsForResult reg r) c) as [Ht He].
    rewrite Ht, He. unfold UpdateMetricsForResult, inc.
    destruct (Speedtest.IsError r); cbn;
      destruct (String.eqb c (Speedtest.ConnectionName r)); cbn; split; lia.
Qed.

Lemma UpdateMetrics_errors_keep_gauges (rs : list Speedtest.Result) :
  forall reg : Registry,
    Forall (fun r => Speedtest.IsError r = true) rs ->
    downloadSpeed (UpdateMetrics reg rs) = downloadSpeed reg
    /\ uploadSpeed (UpdateMetrics reg rs) = uploadSpeed reg
    /\ latency (UpdateMetrics reg rs) = latency reg
    /\ jitter (UpdateMetrics reg rs) = jitter reg
    /\ testTimestamp (UpdateMetrics reg rs) = testTimestamp reg
    /\ testDuration (UpdateMetrics reg rs) = testDuration reg.
Proof.
  induction rs as [ | r rest IH]; intros reg Hall.
  - repeat split.
  - inversion Hall as [ | x l Hr Hrest]; subst.
    cbn [UpdateMetrics fold_left].
    change (fold_left UpdateMetricsForResult rest (UpdateMetricsForResult reg r))
      with (UpdateMetrics (UpdateMetricsForResult reg r) rest).
    destruct (IH (UpdateMetricsForResult reg r) Hrest) as (H1 & H2 & H3 & H4 & H5 & H6).
    rewrite H1, H2, H3, H4, H5, H6.
    unfold UpdateMetricsForResult. rewrite Hr. repeat split.
Qed.

End MetricCounts.

(** X15.  After UpdateMetrics, the tests counter of every connection has
    grown by the number of Results of that connection, and its error
    counter by the number of those that are errors.  Results that are
    errors set no gauge: after a batch of errors only, every gauge is as it
    was. *)
Theorem metrics_count_results :
  forall (reg : Metrics.Registry) (rs : list Speedtest.Result) (c : string),
    Metrics.testsTotal (Metrics.UpdateMetrics reg rs) c
    = (Metrics.testsTotal reg c
       + List.length (filter (fun r => String.eqb c (Speedtest.ConnectionName r)) rs))%nat
    /\ Metrics.testErrors (Metrics.UpdateMetrics reg rs) c
       = (Metrics.testErrors reg c
          + List.length
              (filter (fun r => String.eqb c (Speedtest.ConnectionName r)
                                && Speedtest.IsError r) rs))%nat
    /\ (Forall (fun r => Speedtest.IsError r = true) rs ->
        Metrics.downloadSpeed (Metrics.UpdateMetrics reg rs) = Metrics.downloadSpeed reg
        /\ Metrics.uploadSpeed (Metrics.UpdateMetrics reg rs) = Metrics.uploadSpeed reg
        /\ Metrics.latency (Metrics.UpdateMetrics reg rs) = Metrics.latency reg
        /\ Metrics.jitter (Metrics.UpdateMetrics reg rs) = Metrics.jitter reg
        /\ Metrics.testTimestamp (Metrics.UpdateMetrics reg rs)
           = Metrics.testTimestamp reg
        /\ Metrics.testDuration (Metrics.UpdateMetrics reg rs)
           = Metrics.testDuration reg).
Proof.
  intros reg rs c.
  destruct (UpdateMetrics_counts rs reg c) as [Ht He].
  split; [ exact Ht | ]. split; [ exact He | ].
  apply UpdateMetrics_errors_keep_gauges.
Qed.

(** ** The scheduled job and the API trigger *)

Section JobLoop.

Variable ctx : Speedtest.Context.
Variable now : Z.

(** What the loop of RunWithContext leaves: the registry of UpdateMetrics,
    the store of a plain save of every result, and counters that grew by
    the number of rows taken and by the number refused. *)
Lemma saveLoop_effect (rs : list Speedtest.Result) :
  forall (st : Storage.Store) (reg : Metrics.Registry) (saved errors : Z),
    0 <= saved -> 0 <= errors ->
    saved + errors + Z.of_nat (List.length rs) < 2 ^ 63 ->
    let '(st', reg', saved', errors') := Job.saveLoop ctx now rs st reg saved errors in
    st' = Job.saveAll ctx now rs st
    /\ reg' = Metrics.UpdateMetrics reg rs
    /\ saved <= saved' /\ errors <= errors'
    /\ (saved' - saved) + (errors' - errors) = Z.of_nat (List.length rs)
    /\ Z.of_nat (List.length (Storage.rows st'))
       = Z.of_nat (List.length (Storage.rows st)) + (saved' - saved).
Proof.
  induction rs as [ | r rest IH]; intros st reg saved errors Hs He Hb.
  - cbn. repeat split; lia.
  - cbn [Job.saveLoop Job.saveAll Metrics.UpdateMetrics fold_left].
    cbn [List.length] in Hb.
    unfold Storage.SaveResult.
    destruct (Storage.refuses st (Storage.rows st) ctx now
                (Storage.FromSpeedtestResult r)) as [err | ]; cbn [snd].
    + specialize (IH st (Metrics.UpdateMetricsForResult reg r) saved
                     (GoInt.wrap (errors + 1))).
      rewrite wrap_small in IH |- * by lia.
      destruct (Job.saveLoop ctx now rest st _ saved (errors + 1))
        as [[[st' reg'] saved'] errors'].
      destruct IH as (H1 & H2 & H3 & H4 & H5 & H6); try lia.
      repeat split; try assumption; try exact H2; cbn [List.length]; lia.
    + set (st1 := {| Storage.rows := Storage.rows st ++ [Storage.FromSpeedtestResult r];
                     Storage.refuses := Storage.refuses st |}).
      specialize (IH st1 (Metrics.UpdateMetricsForResult reg r)
                     (GoInt.wrap (saved + 1)) errors).
      rewrite wrap_small in IH |- * by lia.
      destruct (Job.saveLoop ctx now rest st1 _ (saved + 1) errors)
        as [[[st' reg'] saved'] errors'].
      destruct IH as (H1 & H2 & H3 & H4 & H5 & H6); try lia.
      repeat split; try assumption; try exact H2; cbn [List.length]; try lia.
      rewrite H6. subst st1. cbn [Storage.rows]. rewrite length_app.
      cbn [List.length]. lia.
Qed.

End JobLoop.

(** X16.  A job whose sweep returns no error returns nil whatever the
    storage answers.  Its registry is that of UpdateMetrics over the
    sweep's Results (a Result whose save is refused is counted in the
    metrics all the same), the rows taken and the rows refused add up to
    the number of Results, and the store has grown by the rows taken. *)
Theorem job_saves_every_result :
  forall (j : Job.SpeedtestJob) (E : Speedtest.Env) (choices : list nat)
         (st : Storage.Store) (reg : Metrics.Registry)
         (ctx : Speedtest.Context) (now : Z),
    Speedtest.sweepErr (Speedtest.RunAll (Job.runner j) E ctx choices now) = None ->
    Z.of_nat (List.length
                (Speedtest.results (Speedtest.RunAll (Job.runner j) E ctx choices now)))
    < 2 ^ 63 ->
    let d := Job.RunWithContext j E choices st reg ctx now in
    Job.jobErr d = None
    /\ Job.registry d
       = Metrics.UpdateMetrics reg
           (Speedtest.results (Speedtest.RunAll (Job.runner j) E ctx choices now))
    /\ Job.savedCount d + Job.errorCount d
       = Z.of_nat (List.length
                     (Speedtest.results
                        (Speedtest.RunAll (Job.runner j) E ctx choices now)))
    /\ 0 <= Job.savedCount d /\ 0 <= Job.errorCount d
    /\ Z.of_nat (List.length (Storage.rows (Job.store d)))
       = Z.of_nat (List.length (Storage.rows st)) + Job.savedCount d.
Proof.
  intros j E choices st reg ctx now Herr Hb. cbv zeta.
  unfold Job.RunWithContext. rewrite Herr.
  pose proof (saveLoop_effect ctx
                (Speedtest.sweepClock (Speedtest.RunAll (Job.runner j) E ctx choices now))
                (Speedtest.results (Speedtest.RunAll (Job.runner j) E ctx choices now))
                st reg 0 0 ltac:(lia) ltac:(lia) ltac:(lia)) as H.
  destruct (Job.saveLoop _ _ _ st reg 0 0) as [[[st' reg'] saved'] errors'].
  destruct H as (H1 & H2 & H3 & H4 & H5 & H6). cbn.
  repeat split; try assumption; lia.
Qed.

(** The three sample paths with the store that refuses the rows of B: nil
    error, two rows taken, one refused, and B counted in the metrics. *)
Lemma job_saves_every_result_sample :
  let d := Job.RunWithContext {| Job.runner := Sample.threeWANs |} Sample.world []
             Sample.pickyStore Metrics.emptyRegistry Speedtest.Background 0 in
  Job.jobErr d = None
  /\ Job.savedCount d = 2 /\ Job.errorCount d = 1
  /\ Metrics.testsTotal (Job.registry d) "B" = 1%nat.
Proof.
  cbv zeta.
  destruct (job_saves_every_result {| Job.runner := Sample.threeWANs |} Sample.world []
              Sample.pickyStore Metrics.emptyRegistry Speedtest.Background 0
              eq_refl ltac:(cbn; lia)) as (He & _).
  split; [ exact He | ].
  repeat split.
Defined.

(** X17.  The cron job gives its sweep ten minutes.  In sequential mode,
    when the earlier connections were run within that time but the
    deadline has passed at the check before a later connection, the job
    saves nothing and updates no metric: the Results measured so far are
    dropped with the error. *)
Theorem overlong_job_saves_nothing :
  forall (j : Job.SpeedtestJob) (E : Speedtest.Env) (choices : list nat)
         (st : Storage.Store) (reg : Metrics.Registry) (now : Z)
         (pre : list Speedtest.WANConnection) (conn : Speedtest.WANConnection)
         (rest : list Speedtest.WANConnection),
    Speedtest.parallel (Job.runner j) = false ->
    Speedtest.connections (Job.runner j) = pre ++ conn :: rest ->
    Speedtest.sweepErr
      (Speedtest.seqLoop (Speedtest.runner (Job.runner j)) E
         (Job.WithTimeout now (10 * Job.minute)) pre [] now) = None ->
    now + 10 * Job.minute
    <= Speedtest.sweepClock
         (Speedtest.seqLoop (Speedtest.runner (Job.runner j)) E
            (Job.WithTimeout now (10 * Job.minute)) pre [] now) ->
    Job.Run j E choices st reg now = (st, reg)
    /\ Job.jobErr
         (Job.RunWithContext j E choices st reg (Job.WithTimeout now (10 * Job.minute)) now)
       = Some "context deadline exceeded"
    /\ List.length
         (Speedtest.results
            (Speedtest.RunAll (Job.runner j) E (Job.WithTimeout now (10 * Job.minute))
               choices now))
       = List.length pre.
Proof.
  intros j E choices st reg now pre conn rest Hser Hconns Hpre Hlate.
  unfold Job.Run. unfold Job.WithTimeout in *.
  set (ctx := Speedtest.WithDeadline (now + 10 * Job.minute)) in *.
  assert (Hdone : Speedtest.ctxErr ctx
                    (Speedtest.sweepClock
                       (Speedtest.seqLoop (Speedtest.runner (Job.runner j)) E ctx pre [] now))
                  = Some "context deadline exceeded").
  { subst ctx. cbn [Speedtest.ctxErr]. apply Z.leb_le in Hlate. rewrite Hlate.
    reflexivity. }
  assert (Hsw : Speedtest.RunAll (Job.runner j) E ctx choices now
                = {| Speedtest.results :=
                       Speedtest.results
                         (Speedtest.seqLoop (Speedtest.runner (Job.runner j)) E ctx pre [] now);
                     Speedtest.sweepErr := Some "context deadline exceeded";
                     Speedtest.sweepClock :=
                       Speedtest.sweepClock
                         (Speedtest.seqLoop (Speedtest.runner (Job.runner j)) E ctx pre [] now) |}).
  { unfold Speedtest.RunAll. rewrite Hser.
    unfold Speedtest.runSequential. rewrite Hconns, seqLoop_app, Hpre.
    cbn [Speedtest.seqLoop]. rewrite Hdone. reflexivity. }
  unfold Job.RunWithContext. rewrite Hsw. cbn.
  repeat split.
  destruct (seqLoop_extends (Speedtest.runner (Job.runner j)) E ctx pre [] now)
    as (tail & Hr & Hn & _).
  rewrite Hr. cbn. apply Hn. exact Hpre.
Qed.

(** Three paths whose probes take eleven minutes each: after the first
    one the deadline has passed, and the job leaves the store and the
    registry untouched. *)
Lemma overlong_job_saves_nothing_sample :
  Job.Run {| Job.runner := Sample.threeWANs |} Sample.sluggishWorld []
          Sample.diskStore Metrics.emptyRegistry 0
  = (Sample.diskStore, Metrics.emptyRegistry).
Proof.
  apply (overlong_job_saves_nothing {| Job.runner := Sample.threeWANs |}
           Sample.sluggishWorld [] Sample.diskStore Metrics.emptyRegistry 0
           [Sample.wanA] Sample.wanB [Sample.wanC] eq_refl eq_refl eq_refl).
  vm_compute. discriminate.
Defined.

(** X18.  The API trigger saves every Result and then updates the metrics,
    where the job interleaves the two; the storage and the registry it
    leaves are those RunWithContext leaves under a five-minute timeout. *)
Theorem api_trigger_matches_job :
  forall (m : Speedtest.MultiWANRunner) (E : Speedtest.Env) (choices : list nat)
         (st : Storage.Store) (reg : Metrics.Registry) (now : Z),
    Z.of_nat (List.length
                (Speedtest.results
                   (Speedtest.RunAll m E (Job.WithTimeout now (5 * Job.minute))
                      choices now)))
    < 2 ^ 63 ->
    Job.triggerTest m E choices st reg now
    = (Job.store (Job.RunWithContext {| Job.runner := m |} E choices st reg
                    (Job.WithTimeout now (5 * Job.minute)) now),
       Job.registry (Job.RunWithContext {| Job.runner := m |} E choices st reg
                       (Job.WithTimeout now (5 * Job.minute)) now)).
Proof.
  intros m E choices st reg now Hb.
  unfold Job.triggerTest, Job.RunWithContext. cbn [Job.runner].
  destruct (Speedtest.sweepErr _) as [err | ]; [ reflexivity | ].
  pose proof (saveLoop_effect (Job.WithTimeout now (5 * Job.minute))
                (Speedtest.sweepClock
                   (Speedtest.RunAll m E (Job.WithTimeout now (5 * Job.minute)) choices now))
                (Speedtest.results
                   (Speedtest.RunAll m E (Job.WithTimeout now (5 * Job.minute)) choices now))
                st reg 0 0 ltac:(lia) ltac:(lia) ltac:(lia)) as H.
  destruct (Job.saveLoop _ _ _ st reg 0 0) as [[[st' reg'] saved'] errors'].
  destruct H as (H1 & H2 & _). cbn. rewrite H1, H2. reflexivity.
Qed.

(** The three sample paths and the store that refuses B. *)
Lemma api_trigger_matches_job_sample :
  List.length
    (Storage.rows
       (fst (Job.triggerTest Sample.threeWANs Sample.world [] Sample.pickyStore
               Metrics.emptyRegistry 0)))
  = List.length
      (Storage.rows
         (Job.store (Job.RunWithContext {| Job.runner := Sample.threeWANs |}
                       Sample.world [] Sample.pickyStore Metrics.emptyRegistry
                       (Job.WithTimeout 0 (5 * Job.minute)) 0))).
Proof.
  rewrite (api_trigger_matches_job Sample.threeWANs Sample.world [] Sample.pickyStore
             Metrics.emptyRegistry 0 ltac:(cbn; lia)).
  reflexivity.
Defined.

(** ** The scheduler's registrations *)

Section SchedulerRegistry.

Import Scheduler.

Variable p : string -> option error.
Variable cfg : Config.SchedulerConfig.

(** The running flag is cron's, the parser is the one given at
    construction, the job ID is the ID cron handed out last, and the
    entries are numbered 1, 2, ... up to it. *)
Local Abbreviation registered s :=
  (running s = cronRunning (cron s)
   /\ parse (cron s) = p
   /\ jobID s = nextID (cron s)
   /\ 0 <= nextID (cron s)
   /\ entries (cron s) = map Z.of_nat (seq 1 (Z.to_nat (nextID (cron s))))).

Lemma fresh_registered : registered (fresh p cfg).
Proof. cbn. repeat split. lia. Qed.

Lemma numbered_next (n : Z) :
  0 <= n ->
  map Z.of_nat (seq 1 (Z.to_nat n)) ++ [n + 1]
  = map Z.of_nat (seq 1 (Z.to_nat (n + 1))).
Proof.
  intros Hn.
  replace (Z.to_nat (n + 1)) with (S (Z.to_nat n)) by lia.
  rewrite seq_S, map_app. cbn [map]. do 2 f_equal. lia.
Qed.

Lemma exec_registered (a : Action) (s s' : Scheduler) :
  registered s -> exec a s = Some s' -> registered s'.
Proof.
  intros (Hr & Hp & Hj & Hn & He).
  assert (Hsame : forall s1,
            cron s1 = cron s -> running s1 = running s -> jobID s1 = jobID s ->
            registered s1).
  { intros s1 Hc Hrun Hid. rewrite Hc, Hrun, Hid. repeat split; assumption. }
  destruct a as [ | | | id | k]; cbn [exec].
  - intros H. injection H as <-. unfold Start.
    destruct (running s) eqn:Hrun; [ apply Hsame; first [ reflexivity | assumption ] | ].
    destruct (negb _); [ apply Hsame; first [ reflexivity | assumption ] | ].
    unfold AddFunc.
    destruct (parse (cron s) _) as [err | ]; [ apply Hsame; first [ reflexivity | assumption ] | ].
    cbn. repeat split; try assumption; try lia.
    rewrite He. apply numbered_next. exact Hn.
  - unfold Stop. destruct (running s) eqn:Hrun; cbn [negb].
    + destruct (existsb isTimer (inFlight s)); [ discriminate | ].
      intros H. injection H as <-. cbn. repeat split; assumption.
    + intros H. injection H as <-. apply Hsame; first [ reflexivity | assumption ].
  - intros H. injection H as <-. unfold TriggerNow.
    destruct (jobID s =? 0); [ apply Hsame; first [ reflexivity | assumption ] | ].
    destruct (entryHasJob _ _); apply Hsame; first [ reflexivity | assumption ].
  - intros H. injection H as <-. unfold fire.
    destruct (negb (cronRunning _)); [ apply Hsame; first [ reflexivity | assumption ] | ].
    destruct (negb (entryHasJob _ _)); [ apply Hsame; first [ reflexivity | assumption ] | ].
    destruct (_ && _); apply Hsame; first [ reflexivity | assumption ].
  - unfold finish. destruct (removeNth k (inFlight s)); [ | discriminate ].
    intros H. injection H as <-. apply Hsame; first [ reflexivity | assumption ].
Qed.

Lemma reachable_registered (s : Scheduler) : reachable p cfg s -> registered s.
Proof.
  intros (s0 & acts & Hnew & Hrun).
  cbn in Hnew. injection Hnew as <-.
  pose proof fresh_registered as H0.
  revert Hrun H0. generalize (fresh p cfg) as s0.
  induction acts as [ | a rest IH]; intros s0 Hrun H0; cbn in Hrun.
  - injection Hrun as <-. exact H0.
  - destruct (exec a s0) as [s1 | ] eqn:Ha; [ | discriminate ].
    apply (IH s1 Hrun). eapply exec_registered; eassumption.
Qed.

End SchedulerRegistry.

(** X19.  In every state a scheduler can reach, the running flag is that of
    its cron, the job ID is the ID cron handed out last, and the cron
    entries are 1, 2, ..., job ID: every successful Start has added an
    entry and nothing, Stop included, has removed one.  So a running
    scheduler has a registered job, and a scheduler that was started twice
    holds two entries. *)
Theorem scheduler_entries_accumulate :
  forall (p : string -> option error) (cfg : Config.SchedulerConfig)
         (s : Scheduler.Scheduler),
    Scheduler.reachable p cfg s ->
    Scheduler.running s = Scheduler.cronRunning (Scheduler.cron s)
    /\ 0 <= Scheduler.jobID s
    /\ Scheduler.entries (Scheduler.cron s)
       = map Z.of_nat (seq 1 (Z.to_nat (Scheduler.jobID s)))
    /\ (forall s', Scheduler.Stop s = Some s' ->
          Scheduler.entries (Scheduler.cron s') = Scheduler.entries (Scheduler.cron s)
          /\ Scheduler.jobID s' = Scheduler.jobID s
          /\ Scheduler.IsRunning s' = false).
Proof.
  intros p cfg s Hreach.
  destruct (reachable_registered p cfg s Hreach) as (Hr & _ & Hj & Hn & He).
  rewrite Hj. repeat split; try assumption.
  - unfold Scheduler.Stop in H. destruct (negb (Scheduler.running s));
      [ injection H as <-; reflexivity | ].
    destruct (existsb _ _); [ discriminate | ]. injection H as <-. reflexivity.
  - unfold Scheduler.Stop in H. destruct (negb (Scheduler.running s));
      [ injection H as <-; exact Hj | ].
    destruct (existsb _ _); [ discriminate | ]. injection H as <-. exact Hj.
  - unfold Scheduler.Stop in H. destruct (Scheduler.running s) eqn:Hrun; cbn in H.
    + destruct (existsb _ _); [ discriminate | ]. injection H as <-. reflexivity.
    + injection H as <-. exact Hrun.
Qed.

(** Start, Stop, Start: two entries, and the old one still fires. *)
Lemma scheduler_entries_accumulate_restart :
  match Scheduler.execAll [Scheduler.DoStart; Scheduler.DoStop; Scheduler.DoStart]
          (Scheduler.fresh Sample.cronParser Sample.everyHalfHour) with
  | Some s =>
      Scheduler.entries (Scheduler.cron s) = [1; 2]
      /\ Scheduler.inFlight (Scheduler.fire s 1) = [Scheduler.Timer 1]
  | None => False
  end.
Proof.
  destruct (Scheduler.execAll _ _) as [s | ] eqn:Hrun; [ | discriminate Hrun ].
  assert (Hreach : Scheduler.reachable Sample.cronParser Sample.everyHalfHour s).
  { exists (Scheduler.fresh Sample.cronParser Sample.everyHalfHour),
      [Scheduler.DoStart; Scheduler.DoStop; Scheduler.DoStart].
    split; [ reflexivity | exact Hrun ]. }
  destruct (scheduler_entries_accumulate _ _ _ Hreach) as (_ & _ & He & _).
  rewrite He. cbn in Hrun. injection Hrun as <-. split; reflexivity.
Defined.

(** X20.  Start on a reachable scheduler that is enabled and not running:
    when the schedule parses, it returns nil, the scheduler is running with
    the next job ID, and a second Start returns the already-running error
    and changes nothing; when the schedule does not parse, it returns the
    parser's error in its message and changes nothing, so the scheduler is
    still not running. *)
Theorem Start_once_then_refused :
  forall (p : string -> option error) (cfg : Config.SchedulerConfig)
         (s : Scheduler.Scheduler),
    Scheduler.reachable p cfg s ->
    Scheduler.running s = false ->
    Config.SchedEnabled cfg = true ->
    match p (Config.Schedule cfg) with
    | None =>
        fst (Scheduler.Start s) = None
        /\ Scheduler.IsRunning (snd (Scheduler.Start s)) = true
        /\ Scheduler.jobID (snd (Scheduler.Start s)) = Scheduler.jobID s + 1
        /\ Scheduler.Start (snd (Scheduler.Start s))
           = (Some "scheduler already running", snd (Scheduler.Start s))
    | Some err =>
        Scheduler.Start s
        = (Some ("failed to add cron job: " ++ err ++ " (schedule: "
                 ++ Config.Schedule cfg ++ ")")%string, s)
    end.
Proof.
  intros p cfg s Hreach Hrun Hon.
  destruct (reachable_registered p cfg s Hreach) as (_ & Hp & Hj & _ & _).
  destruct (reachable_wellFormed p cfg s Hreach) as (_ & Hcfg & _).
  assert (Hstart : Scheduler.Start s
                   = match Scheduler.AddFunc (Scheduler.cron s) (Config.Schedule cfg) with
                     | (_, Some err, c) =>
                         (Some ("failed to add cron job: " ++ err ++ " (schedule: "
                                ++ Config.Schedule cfg ++ ")")%string,
                          Scheduler.withCron s c)
                     | (entryID, None, c) =>
                         (None,
                          {| Scheduler.cron := Scheduler.cronSetRunning c true;
                             Scheduler.config := Scheduler.config s;
                             Scheduler.running := true;
                             Scheduler.jobID := entryID;
                             Scheduler.inFlight := Scheduler.inFlight s;
                             Scheduler.launched := Scheduler.launched s |})
                     end).
  { unfold Scheduler.Start. rewrite Hrun, Hcfg, Hon. reflexivity. }
  rewrite Hstart. unfold Scheduler.AddFunc. rewrite Hp.
  destruct (p (Config.Schedule cfg)) as [err | ].
  - destruct s; reflexivity.
  - cbn. rewrite Hj. repeat split.
Qed.

(** The half-hourly schedule on a fresh scheduler. *)
Lemma Start_once_then_refused_sample :
  fst (Scheduler.Start
         (snd (Scheduler.Start (Scheduler.fresh Sample.cronParser Sample.everyHalfHour))))
  = Some "scheduler already running".
Proof.
  assert (Hreach : Scheduler.reachable Sample.cronParser Sample.everyHalfHour
                     (Scheduler.fresh Sample.cronParser Sample.everyHalfHour)).
  { exists (Scheduler.fresh Sample.cronParser Sample.everyHalfHour), [].
    split; reflexivity. }
  pose proof (Start_once_then_refused _ _ _ Hreach eq_refl eq_refl) as H.
  cbn in H. destruct H as (_ & _ & _ & H). exact (f_equal fst H).
Defined.

(** ** The configuration loader *)

Section Validation.

Import Config.

Variable L : LoaderEnv.

Lemma allowed_In (table : list string) (key : string) :
  allowed table key = true <-> In key table.
Proof.
  unfold allowed. rewrite existsb_exists. split.
  - intros (x & Hin & Hx). apply String.eqb_eq in Hx. subst x. exact Hin.
  - intros Hin. exists key. split; [ exact Hin | apply String.eqb_refl ].
Qed.

(** A connection the loop lets through. *)
Local Abbreviation sound conn :=
  (Name conn <> empty
   /\ 0 <= DSCP conn <= 63
   /\ (SourceIP conn = empty \/ loaderParseIP L (SourceIP conn) = true)).

Lemma validateConnections_ok (conns : list ConnectionConfig) :
  forall (i : Z) (seen : list string),
    validateConnections L i seen conns = None ->
    Forall (fun conn => sound conn) conns
    /\ NoDup (map Name conns)
    /\ (forall n, In n seen -> ~ In n (map Name conns)).
Proof.
  induction conns as [ | conn rest IH]; intros i seen; cbn [validateConnections map].
  - intros _. split; [ constructor | ]. split; [ constructor | ]. intros n _ [].
  - destruct (String.eqb_spec (Name conn) empty) as [Hn | Hn]; [ discriminate | ].
    destruct (allowed seen (Name conn)) eqn:Hseen; [ discriminate | ].
    destruct (Z.ltb_spec (DSCP conn) 0) as [Hlo | Hlo]; [ discriminate | ].
    destruct (Z.ltb_spec 63 (DSCP conn)) as [Hhi | Hhi]; [ discriminate | ].
    cbn [orb].
    destruct (String.eqb_spec (SourceIP conn) empty) as [Hs | Hs]; cbn [negb andb].
    + intros H. destruct (IH _ _ H) as (Hall & Hnd & Hfresh).
      split; [ | split ].
      * constructor; [ | exact Hall ]. repeat split; try assumption. left. exact Hs.
      * constructor; [ | exact Hnd ]. apply (Hfresh (Name conn)). left. reflexivity.
      * intros n Hin [Hx | Hx].
        -- subst n. apply allowed_In in Hin. rewrite Hin in Hseen. discriminate.
        -- apply (Hfresh n); [ right; exact Hin | exact Hx ].
    + destruct (loaderParseIP L (SourceIP conn)) eqn:Hp; cbn [negb]; [ | discriminate ].
      intros H. destruct (IH _ _ H) as (Hall & Hnd & Hfresh).
      split; [ | split ].
      * constructor; [ | exact Hall ]. repeat split; try assumption. right. exact Hp.
      * constructor; [ | exact Hnd ]. apply (Hfresh (Name conn)). left. reflexivity.
      * intros n Hin [Hx | Hx].
        -- subst n. apply allowed_In in Hin. rewrite Hin in Hseen. discriminate.
        -- apply (Hfresh n); [ right; exact Hin | exact Hx ].
Qed.

Lemma Validate_connections (cfg : File) :
  Validate L cfg = None ->
  Connections cfg <> []
  /\ validateConnections L 0 [] (Connections cfg) = None.
Proof.
  unfold Validate.
  destruct (negb (allowed _ (LogLevel _))); [ discriminate | ].
  destruct (negb (allowed _ (StorageType _))); [ discriminate | ].
  destruct (_ && _); [ discriminate | ].
  destruct (_ && _); [ discriminate | ].
  destruct (_ && _); [ discriminate | ].
  destruct (if WebEnabled _ then _ else _); [ discriminate | ].
  destruct (Connections cfg) as [ | c rest]; [ discriminate | ].
  destruct (validateConnections L 0 [] (c :: rest)); [ discriminate | ].
  intros _. split; [ discriminate | reflexivity ].
Qed.

End Validation.

(** X21.  A configuration Validate accepts has at least one connection, and
    its connections have non-empty, pairwise distinct names, DSCP values in
    0..63 and source addresses that are empty or parse.  So, on a host
    whose address parser is the loader's, NewDSCPDialer succeeds for every
    one of them: Run never fails for want of a dialer. *)
Theorem validated_connections_dial :
  forall (L : Config.LoaderEnv) (cfg : Config.File),
    Config.Validate L cfg = None ->
    Config.Connections cfg <> []
    /\ NoDup (map Config.Name (Config.Connections cfg))
    /\ Forall (fun conn => Config.Name conn <> empty /\ 0 <= Config.DSCP conn <= 63)
              (Config.Connections cfg)
    /\ (forall (E : Dscp.NetEnv) (conn : Config.ConnectionConfig) (logger : bool),
          Dscp.ParseIP E = Config.loaderParseIP L ->
          In conn (Config.Connections cfg) ->
          Dscp.NewDSCPDialer E (Config.DSCP conn) (Config.SourceIP conn) logger
          = inr {| Dscp.DSCP := Config.DSCP conn;
                   Dscp.SourceIP := Config.SourceIP conn;
                   Dscp.Logger := logger |}).
Proof.
  intros L cfg Hv.
  destruct (Validate_connections L cfg Hv) as [Hne Hc].
  destruct (validateConnections_ok L (Config.Connections cfg) 0 [] Hc)
    as (Hall & Hnd & _).
  split; [ exact Hne | ]. split; [ exact Hnd | ]. split.
  - eapply Forall_impl; [ | exact Hall ]. cbn. intros conn (H1 & H2 & _).
    split; assumption.
  - intros E conn logger Hp Hin.
    rewrite Forall_forall in Hall. destruct (Hall conn Hin) as (_ & Hd & Hs).
    unfold Dscp.NewDSCPDialer.
    destruct (Z.ltb_spec (Config.DSCP conn) 0) as [Hlo | _]; [ lia | ].
    destruct (Z.ltb_spec 63 (Config.DSCP conn)) as [Hhi | _]; [ lia | ].
    cbn [orb]. rewrite Hp.
    destruct Hs as [Hs | Hs]; rewrite Hs.
    + reflexivity.
    + rewrite andb_false_r. reflexivity.
Qed.

(** The site file with the connections A, B and C. *)
Lemma validated_connections_dial_site :
  Config.Validate Sample.loader Sample.siteFile = None
  /\ Dscp.NewDSCPDialer Sample.linuxHost 46 "192.168.2.100" true
     = inr {| Dscp.DSCP := 46; Dscp.SourceIP := "192.168.2.100"; Dscp.Logger := true |}.
Proof.
  split; [ reflexivity | ].
  apply (proj2 (proj2 (proj2 (validated_connections_dial Sample.loader Sample.siteFile
                                 eq_refl))) Sample.linuxHost Sample.cfgB true eq_refl).
  right. left. reflexivity.
Defined.

Lemma orDefault_idem (s dflt : string) :
  String.eqb dflt empty = false ->
  Config.orDefault (Config.orDefault s dflt) dflt = Config.orDefault s dflt.
Proof.
  intros Hd. unfold Config.orDefault.
  destruct (String.eqb s empty) eqn:Hs.
  - rewrite Hd. reflexivity.
  - rewrite Hs. reflexivity.
Qed.

Lemma orDefault_nonempty (s dflt : string) :
  String.eqb dflt empty = false ->
  String.eqb (Config.orDefault s dflt) empty = false.
Proof.
  intros Hd. unfold Config.orDefault.
  destruct (String.eqb s empty) eqn:Hs; assumption.
Qed.

(** X22.  ApplyDefaults is idempotent; it leaves the connections and both
    enabled flags as they are; and afterwards no defaulted setting is
    unset: log level, storage type, listen address, schedule and sizes are
    non-empty, port and timeout are non-zero, and the SQLite path is
    non-empty when the storage type is sqlite. *)
Theorem ApplyDefaults_idempotent :
  forall cfg : Config.File,
    Config.ApplyDefaults (Config.ApplyDefaults cfg) = Config.ApplyDefaults cfg
    /\ Config.Connections (Config.ApplyDefaults cfg) = Config.Connections cfg
    /\ Config.SchedEnabled (Config.Scheduler (Config.ApplyDefaults cfg))
       = Config.SchedEnabled (Config.Scheduler cfg)
    /\ Config.LogLevel (Config.General (Config.ApplyDefaults cfg)) <> empty
    /\ Config.StorageType (Config.Storage (Config.ApplyDefaults cfg)) <> empty
    /\ Config.Listen (Config.Webserver (Config.ApplyDefaults cfg)) <> empty
    /\ Config.Schedule (Config.Scheduler (Config.ApplyDefaults cfg)) <> empty
    /\ Config.Port (Config.Postgres (Config.Storage (Config.ApplyDefaults cfg))) <> 0
    /\ Config.Timeout (Config.Speedtest (Config.ApplyDefaults cfg)) <> 0
    /\ (Config.StorageType (Config.Storage (Config.ApplyDefaults cfg)) = "sqlite" ->
        Config.Path (Config.SQLite (Config.Storage (Config.ApplyDefaults cfg))) <> empty).
Proof.
  intros cfg.
  assert (Hne : forall s dflt, String.eqb dflt empty = false ->
                  Config.orDefault s dflt <> empty).
  { intros s dflt Hd He. pose proof (orDefault_nonempty s dflt Hd) as H.
    rewrite He in H. discriminate H. }
  split.
  - unfold Config.ApplyDefaults. cbn.
    rewrite !orDefault_idem by reflexivity.
    f_equal.
    + f_equal.
      * f_equal.
        destruct (String.eqb (Config.orDefault _ Config.DefaultStorageType) "sqlite");
          cbn [andb]; [ | reflexivity ].
        destruct (String.eqb (Config.Path _) empty) eqn:Hp; [ reflexivity | ].
        rewrite Hp. reflexivity.
      * f_equal.
        destruct (Config.Port _ =? 0) eqn:Hp; [ reflexivity | rewrite Hp; reflexivity ].
    + f_equal.
      destruct (Config.Timeout _ =? 0) eqn:Ht; [ reflexivity | rewrite Ht; reflexivity ].
  - cbn. repeat split; try (apply Hne; reflexivity).
    + destruct (Z.eqb_spec (Config.Port (Config.Postgres (Config.Storage cfg))) 0);
        [ discriminate | assumption ].
    + destruct (Z.eqb_spec (Config.Timeout (Config.Speedtest cfg)) 0);
        [ discriminate | assumption ].
    + intros Ht. rewrite Ht. cbn [String.eqb Ascii.eqb Bool.eqb andb].
      destruct (String.eqb_spec (Config.Path (Config.SQLite (Config.Storage cfg))) empty);
        [ discriminate | assumption ].
Qed.

Lemma find_first {A : Type} (f : A -> bool) (l : list A) (x : A) :
  find f l = Some x ->
  exists before after,
    l = before ++ x :: after /\ f x = true /\ Forall (fun y => f y = false) before.
Proof.
  induction l as [ | y l IH]; cbn; [ discriminate | ].
  destruct (f y) eqn:Hy.
  - intros H. injection H as <-. exists [], l. repeat split; [ exact Hy | constructor ].
  - intros H. destruct (IH H) as (before & after & Hl & Hx & Hb).
    exists (y :: before), after. rewrite Hl. repeat split; [ exact Hx | ].
    constructor; assumption.
Qed.

(** X23.  resolveConfigPath returns only a path that exists.  An explicit
    path is never replaced: if it does not exist the result is an error,
    whatever FLOWGAUGE_CONFIG and the default paths hold; the same for a
    non-empty FLOWGAUGE_CONFIG when no path is given.  With neither, the
    result is the first default path that exists. *)
Theorem resolveConfigPath_priority :
  forall (L : Config.LoaderEnv) (path : string),
    (forall p, Config.resolveConfigPath L path = inr p -> Config.Stat L p = true)
    /\ (path <> empty ->
        Config.resolveConfigPath L path
        = if Config.Stat L path then inr path
          else inl ("config file not found: " ++ path)%string)
    /\ (path = empty -> Config.Getenv L "FLOWGAUGE_CONFIG" <> empty ->
        forall p, Config.resolveConfigPath L path = inr p ->
                  p = Config.Getenv L "FLOWGAUGE_CONFIG")
    /\ (path = empty -> Config.Getenv L "FLOWGAUGE_CONFIG" = empty ->
        forall p, Config.resolveConfigPath L path = inr p ->
          exists before after,
            Config.DefaultConfigPaths = before ++ p :: after
            /\ Forall (fun q => Config.Stat L q = false) before).
Proof.
  intros L path. unfold Config.resolveConfigPath.
  destruct (String.eqb_spec path empty) as [He | He]; cbn [negb].
  - destruct (String.eqb_spec (Config.Getenv L "FLOWGAUGE_CONFIG") empty) as [Hg | Hg];
      cbn [negb].
    + split; [ | split; [ | split ] ].
      * intros p. destruct (find _ _) as [q | ] eqn:Hf; [ | discriminate ].
        intros H. injection H as <-. apply find_some in Hf. apply Hf.
      * intros H. contradiction.
      * intros _ H. contradiction.
      * intros _ _ p. destruct (find _ _) as [q | ] eqn:Hf; [ | discriminate ].
        intros H. injection H as <-.
        destruct (find_first _ _ _ Hf) as (before & after & Hl & _ & Hb).
        exists before, after. split; assumption.
    + split; [ | split; [ | split ] ].
      * intros p. destruct (Config.Stat L _) eqn:Hs; [ | discriminate ].
        intros H. injection H as <-. exact Hs.
      * intros H. contradiction.
      * intros _ _ p. destruct (Config.Stat L _); [ | discriminate ].
        intros H. injection H as <-. reflexivity.
      * intros _ H. contradiction.
  - split; [ | split; [ | split ] ].
    + intros p. destruct (Config.Stat L path) eqn:Hs; [ | discriminate ].
      intros H. injection H as <-. exact Hs.
    + intros _. reflexivity.
    + intros H. contradiction.
    + intros H. contradiction.
Qed.

(** With no path and no variable, on a system that has ./config.yml and
    ./flowgauge.yaml: the first of the two in the search order. *)
Lemma resolveConfigPath_priority_sample :
  Config.resolveConfigPath Sample.loader empty = inr "./config.yml"
  /\ Config.Stat Sample.loader "./config.yml" = true.
Proof.
  split; [ reflexivity | ].
  apply (proj1 (resolveConfigPath_priority Sample.loader empty)). reflexivity.
Defined.

Lemma NoDup_map_inj {A B : Type} (f : A -> B) (l : list A) (x y : A) :
  NoDup (map f l) -> In x l -> In y l -> f x = f y -> x = y.
Proof.
  induction l as [ | z l IH]; cbn; [ intros _ [] | ].
  intros Hnd Hx Hy Hf. inversion Hnd as [ | w l' Hnotin Hnd']; subst.
  destruct Hx as [Hx | Hx], Hy as [Hy | Hy].
  - congruence.
  - subst z. exfalso. apply Hnotin. rewrite Hf. apply in_map. exact Hy.
  - subst z. exfalso. apply Hnotin. rewrite <- Hf. apply in_map. exact Hx.
  - apply IH; assumption.
Qed.

Lemma find_by_name (conns : list Config.ConnectionConfig) (c : Config.ConnectionConfig) :
  NoDup (map Config.Name conns) -> In c conns ->
  find (fun conn => String.eqb (Config.Name conn) (Config.Name c)) conns = Some c.
Proof.
  intros Hnd Hin.
  destruct (find _ conns) as [c' | ] eqn:Hf.
  - apply find_some in Hf. destruct Hf as [Hin' Hn]. apply String.eqb_eq in Hn.
    f_equal. apply (NoDup_map_inj Config.Name conns); assumption.
  - exfalso. apply (find_none _ _ Hf) in Hin. rewrite String.eqb_refl in Hin.
    discriminate Hin.
Qed.

(** X24.  In a configuration whose connection names are distinct, a
    disabled connection is found by GetConnectionByName and listed neither
    by GetEnabledConnections nor by the runner built from the
    configuration: RunConnection with its name runs nothing and returns the
    not-found error. *)
Theorem disabled_connection_not_runnable :
  forall (cfg : Config.File) (speed : option Config.SpeedtestConfig)
         (c : Config.ConnectionConfig) (m : Speedtest.MultiWANRunner)
         (E : Speedtest.Env) (ctx : Speedtest.Context) (now : Z),
    NoDup (map Config.Name (Config.Connections cfg)) ->
    In c (Config.Connections cfg) ->
    Config.Enabled c = false ->
    Speedtest.NewMultiWANRunner (Config.Connections cfg) speed = inr m ->
    Config.GetConnectionByName cfg (Config.Name c) = Some c
    /\ ~ In c (Config.GetEnabledConnections cfg)
    /\ Speedtest.GetConnections m
       = map Speedtest.WANConnectionFromConfig (Config.GetEnabledConnections cfg)
    /\ Speedtest.RunConnection m E ctx (Config.Name c) now
       = (None,
          Some ("connection " ++ Speedtest.Quote E (Config.Name c)
                ++ " not found")%string,
          now).
Proof.
  intros cfg speed c m E ctx now Hnd Hin Hoff Hm.
  assert (Hconns : Speedtest.connections m
                   = map Speedtest.WANConnectionFromConfig
                       (filter Config.Enabled (Config.Connections cfg))).
  { revert Hm. unfold Speedtest.NewMultiWANRunner.
    destruct (map _ (filter _ _)) eqn:Hmap; [ discriminate | ].
    intros H. injection H as <-. reflexivity. }
  split; [ apply find_by_name; assumption | ].
  split.
  { unfold Config.GetEnabledConnections. intros Hc. apply filter_In in Hc.
    rewrite Hoff in Hc. destruct Hc as [_ Hc]. discriminate Hc. }
  split; [ exact Hconns | ].
  unfold Speedtest.RunConnection.
  assert (Hnone : Speedtest.findConnection (Config.Name c) (Speedtest.connections m) = None).
  { apply findConnection_None. rewrite Hconns, map_map. cbn.
    change (fun x => Config.Name x) with Config.Name.
    intros Hx. apply in_map_iff in Hx. destruct Hx as (c' & Hn & Hc').
    apply filter_In in Hc'. destruct Hc' as [Hin' Hon].
    assert (c' = c) by (apply (NoDup_map_inj Config.Name (Config.Connections cfg));
                        assumption).
    subst c'. rewrite Hoff in Hon. discriminate Hon. }
  rewrite Hnone. reflexivity.
Qed.

(** The disabled connection C of the site file. *)
Lemma disabled_connection_not_runnable_site :
  Config.GetConnectionByName Sample.siteFile "C" = Some Sample.cfgC
  /\ Speedtest.RunConnection
       {| Speedtest.connections :=
            map Speedtest.WANConnectionFromConfig [Sample.cfgA; Sample.cfgB];
          Speedtest.runner := Speedtest.NewRunner None;
          Speedtest.parallel := false |}
       Sample.world Speedtest.Background "C" 0
     = (None,
        Some ("connection " ++ Speedtest.Quote Sample.world "C" ++ " not found")%string,
        0).
Proof.
  split; [ reflexivity | ].
  apply (disabled_connection_not_runnable Sample.siteFile None Sample.cfgC _
           Sample.world Speedtest.Background 0).
  - cbn. repeat constructor; cbn; intuition discriminate.
  - right. right. left. reflexivity.
  - reflexivity.
  - reflexivity.
Defined.
